(** * Health-check HTTP endpoint (health-check-server.py)

    A shallow embedding of [HealthCheckHandler] and of the Python string,
    codec and json operations it calls, followed by the properties of the
    endpoint: routing, probe result classification, output sanitisation and
    the error envelope. *)

From Stdlib Require Import List NArith ZArith Bool Lia.
From Stdlib Require Import Ascii String Strings.Byte DecimalString.
From Stdlib Require DecimalPos DecimalZ.
Import ListNotations.

Set Implicit Arguments.

(** ** Python [str] values *)

Module PyStr.

Local Open Scope N_scope.

(** A [str] is a sequence of code points. *)
Definition pychar := N.
Definition pystr := list pychar.

(** A literal of the source, written as a Rocq string of ASCII characters. *)
Definition lit (s : string) : pystr :=
  List.map N_of_ascii (list_ascii_of_string s).

(** A literal in which the apostrophe stands for the double quote
    (code point 34), used for JSON texts. *)
Definition dq (s : string) : pystr :=
  List.map (fun c => if c =? 39 then 34 else c) (lit s).

Definition LF : pychar := 10.
Definition DQUOTE : pychar := 34.
Definition BACKSLASH : pychar := 92.

(** [a == b] *)
Fixpoint str_eqb (a b : pystr) : bool :=
  match a, b with
  | [], [] => true
  | x :: a', y :: b' => (x =? y) && str_eqb a' b'
  | _, _ => false
  end.

(** [str.isspace] on one code point: the characters [str.strip()] removes. *)
Definition isspace (c : pychar) : bool :=
  ((9 <=? c) && (c <=? 13)) || ((28 <=? c) && (c <=? 32))
  || (c =? 133) || (c =? 160) || (c =? 5760)
  || ((8192 <=? c) && (c <=? 8202))
  || (c =? 8232) || (c =? 8233) || (c =? 8239) || (c =? 8287)
  || (c =? 12288).

Fixpoint lstrip (s : pystr) : pystr :=
  match s with
  | [] => []
  | c :: s' => if isspace c then lstrip s' else s
  end.

Definition rstrip (s : pystr) : pystr := List.rev (lstrip (List.rev s)).

(** [s.strip()] *)
Definition strip (s : pystr) : pystr := rstrip (lstrip s).

(** [s.startswith(prefix)] *)
Fixpoint startswith (prefix s : pystr) : bool :=
  match prefix, s with
  | [], _ => true
  | _ :: _, [] => false
  | p :: prefix', c :: s' => (p =? c) && startswith prefix' s'
  end.

(** [needle in s] *)
Fixpoint contains (needle s : pystr) : bool :=
  startswith needle s ||
  match s with
  | [] => false
  | _ :: s' => contains needle s'
  end.

(** [s.split(sep)] for a separator of one character, the only form the
    source uses; the result always has at least one element. *)
Fixpoint split (sep : pychar) (s : pystr) : list pystr :=
  match s with
  | [] => [[]]
  | c :: s' =>
      if c =? sep then [] :: split sep s'
      else match split sep s' with
           | [] => [[c]]
           | l :: ls => (c :: l) :: ls
           end
  end.

(** [sep.join(parts)] *)
Fixpoint join (sep : pystr) (parts : list pystr) : pystr :=
  match parts with
  | [] => []
  | [p] => p
  | p :: ps => p ++ sep ++ join sep ps
  end.

End PyStr.
Export PyStr.

(** ** Bytes, codecs and number formatting *)

Module Codec.

Local Open Scope N_scope.

Definition bytes := list byte.

Definition byte_of_N (n : N) : byte :=
  match Byte.of_N n with
  | Some b => b
  | None => x00
  end.

(** A bytes literal [b'...'] of ASCII characters; the apostrophe-for-quote
    form is [bdq]. *)
Definition blit (s : string) : bytes := List.map byte_of_N (lit s).
Definition bdq (s : string) : bytes := List.map byte_of_N (dq s).

Definition is_surrogate (c : pychar) : bool := (55296 <=? c) && (c <=? 57343).

(** The UTF-8 code units of one code point. *)
Definition utf8_char (c : pychar) : bytes :=
  if c <? 128 then [byte_of_N c]
  else if c <? 2048 then
    [byte_of_N (192 + c / 64); byte_of_N (128 + c mod 64)]
  else if c <? 65536 then
    [byte_of_N (224 + c / 4096); byte_of_N (128 + (c / 64) mod 64);
     byte_of_N (128 + c mod 64)]
  else
    [byte_of_N (240 + (c / 262144) mod 8); byte_of_N (128 + (c / 4096) mod 64);
     byte_of_N (128 + (c / 64) mod 64); byte_of_N (128 + c mod 64)].

Definition utf8_bytes (s : pystr) : bytes := flat_map utf8_char s.

(** [str(n)] for a non-negative index and for an [int]. *)
Definition str_of_nat (n : nat) : pystr :=
  lit (NilZero.string_of_uint (Nat.to_uint n)).
Definition str_of_int (z : Z) : pystr :=
  lit (NilZero.string_of_int (Z.to_int z)).

(** One lower-case hexadecimal digit and the format [{0:04x}]. *)
Definition hexdigit (d : N) : pychar :=
  let d := d mod 16 in if d <? 10 then 48 + d else 87 + d.
Definition hex4 (n : N) : pystr :=
  [hexdigit (n / 4096); hexdigit (n / 256); hexdigit (n / 16); hexdigit n].

(** The first run of surrogates of [s], as (start, first character, end). *)
Fixpoint takewhile (f : pychar -> bool) (s : pystr) : pystr :=
  match s with
  | [] => []
  | c :: s' => if f c then c :: takewhile f s' else []
  end.

Fixpoint find_surrogates (i : nat) (s : pystr) : option (nat * pychar * nat) :=
  match s with
  | [] => None
  | c :: s' =>
      if is_surrogate c
      then Some (i, c, (i + 1 + List.length (takewhile is_surrogate s'))%nat)
      else find_surrogates (S i) s'
  end.

(** [str(e)] of the [UnicodeEncodeError] raised by the utf-8 codec. *)
Definition encode_error_str (start : nat) (c : pychar) (stop : nat) : pystr :=
  if Nat.eqb stop (S start) then
    lit "'utf-8' codec can't encode character '" ++ BACKSLASH :: lit "u" ++ hex4 c
      ++ lit "' in position " ++ str_of_nat start
      ++ lit ": surrogates not allowed"
  else
    lit "'utf-8' codec can't encode characters in position " ++ str_of_nat start
      ++ lit "-" ++ str_of_nat (stop - 1)
      ++ lit ": surrogates not allowed".

End Codec.
Export Codec.

(** ** Exceptions *)

(** The exception classes the handler distinguishes; every one of them is
    a subclass of [Exception]. [OtherException] stands for any further
    subclass of [Exception]. *)
Inductive exc_class :=
| TimeoutExpired
| JSONDecodeError
| UnicodeEncodeError
| OSError
| OtherException.

(** An exception object: its class and [str(e)]. *)
Record exc := mkExc { exc_type : exc_class; exc_str : pystr }.

Definition is_TimeoutExpired (e : exc) : bool :=
  match exc_type e with TimeoutExpired => true | _ => false end.
Definition is_JSONDecodeError (e : exc) : bool :=
  match exc_type e with JSONDecodeError => true | _ => false end.

(** [s.encode('utf-8')]: the strict codec refuses surrogates. *)
Definition encode_utf8 (s : pystr) : exc + bytes :=
  match find_surrogates 0 s with
  | Some (start, c, stop) =>
      inl (mkExc UnicodeEncodeError (encode_error_str start c stop))
  | None => inr (utf8_bytes s)
  end.

(** ** json.dumps of the error envelope *)

Module JsonDumps.

Local Open Scope N_scope.

(** The replacement [py_encode_basestring_ascii] makes for one character
    ([ensure_ascii] is on by default). *)
Definition escape_char (c : pychar) : pystr :=
  if c =? 34 then [BACKSLASH; 34]
  else if c =? 92 then [BACKSLASH; 92]
  else if c =? 8 then BACKSLASH :: lit "b"
  else if c =? 12 then BACKSLASH :: lit "f"
  else if c =? 10 then BACKSLASH :: lit "n"
  else if c =? 13 then BACKSLASH :: lit "r"
  else if c =? 9 then BACKSLASH :: lit "t"
  else if (32 <=? c) && (c <=? 126) then [c]
  else if c <? 65536 then BACKSLASH :: lit "u" ++ hex4 c
  else
    let n := c - 65536 in
    let s1 := N.lor 55296 (N.land (N.shiftr n 10) 1023) in
    let s2 := N.lor 56320 (N.land n 1023) in
    BACKSLASH :: lit "u" ++ hex4 s1 ++ BACKSLASH :: lit "u" ++ hex4 s2.

Definition dumps_str (s : pystr) : pystr :=
  DQUOTE :: flat_map escape_char s ++ [DQUOTE].

(** The dict [error_response] of [send_error_response], in insertion
    order. *)
Record error_envelope := mkEnvelope {
  env_status : pystr;
  env_message : pystr;
  env_timestamp : Z
}.

Definition json_dumps (e : error_envelope) : pystr :=
  dq "{'status': " ++ dumps_str (env_status e)
    ++ dq ", 'message': " ++ dumps_str (env_message e)
    ++ dq ", 'timestamp': " ++ str_of_int (env_timestamp e)
    ++ lit "}".

End JsonDumps.
Export JsonDumps.

(** ** The handler's effects *)

(** What the process runner hands back: a [CompletedProcess], or the
    exception [subprocess.run] raised ([TimeoutExpired] after the deadline,
    an [OSError] when the probe cannot be launched, ...). *)
Record CompletedProcess := mkCompleted {
  returncode : Z;
  stdout : pystr;
  stderr : pystr
}.

Inductive ProbeOutcome :=
| Completed (result : CompletedProcess)
| Raised (e : exc).

(** The surroundings of one request: how the probe behaves when it is run
    and the reading [int(time.time() * 1000)] of the clock. *)
Record World := mkWorld {
  probe : ProbeOutcome;
  now_ms : Z
}.

(** The calls the handler makes on the process runner and on
    [BaseHTTPRequestHandler], in order. *)
Inductive event :=
| SubprocessRun (args : list pystr) (timeout : Z)
| SendResponse (code : Z)
| SendHeader (keyword value : pystr)
| EndHeaders
| WfileWrite (data : bytes)
| SendError (code : Z).

Definition trace := list event.

(** Computations that read the world, append to the trace and may raise. *)
Definition M (A : Type) : Type := World -> trace -> (exc + A) * trace.

Definition ret {A} (a : A) : M A := fun _ tr => (inr a, tr).

Definition bind {A B} (m : M A) (k : A -> M B) : M B :=
  fun w tr =>
    match m w tr with
    | (inr a, tr') => k a w tr'
    | (inl e, tr') => (inl e, tr')
    end.

Definition emit (ev : event) : M unit := fun _ tr => (inr tt, tr ++ [ev]).

Definition lift {A} (r : exc + A) : M A := fun _ tr => (r, tr).

(** [try: body except ...]: [handlers e] is the suite of the first
    [except] clause that matches [e], if any; otherwise [e] propagates. *)
Definition try_except {A} (body : M A) (handlers : exc -> option (M A)) : M A :=
  fun w tr =>
    match body w tr with
    | (inr a, tr') => (inr a, tr')
    | (inl e, tr') =>
        match handlers e with
        | Some h => h w tr'
        | None => (inl e, tr')
        end
    end.

Declare Scope py_scope.
Delimit Scope py_scope with py.
Notation "x <- m ;; k" := (bind m (fun x => k))
  (at level 61, m at next level, right associativity) : py_scope.
Notation "m ;; k" := (bind m (fun _ => k))
  (at level 61, right associativity) : py_scope.

Definition subprocess_run (args : list pystr) (timeout : Z) : M CompletedProcess :=
  fun w tr =>
    match probe w with
    | Completed result => (inr result, tr ++ [SubprocessRun args timeout])
    | Raised e => (inl e, tr ++ [SubprocessRun args timeout])
    end.

Definition time_ms : M Z := fun w tr => (inr (now_ms w), tr).

Definition send_response (code : Z) : M unit := emit (SendResponse code).
Definition send_header (keyword value : pystr) : M unit := emit (SendHeader keyword value).
Definition end_headers : M unit := emit EndHeaders.
Definition wfile_write (data : bytes) : M unit := emit (WfileWrite data).
Definition send_error (code : Z) : M unit := emit (SendError code).

(** ** HealthCheckHandler *)

Definition PROBE_PATH : pystr := lit "/usr/local/bin/global-health-check.sh".

(** Lines 32-40 of [do_GET]: the clean-up of the probe's stdout. The loop
    appends the kept lines to [json_lines] one by one. *)
Definition clean_output (stdout : pystr) : pystr :=
  let output := strip stdout in
  if contains (lit "EOF") output then
    let lines := split LF output in
    let json_lines :=
      fold_left
        (fun json_lines line =>
           if negb (startswith PROBE_PATH line) then json_lines ++ [line]
           else json_lines)
        lines [] in
    strip (join [LF] json_lines)
  else output.

Section Handler.

Local Open Scope py_scope.
Local Open Scope Z_scope.

(** [json.loads] of the standard library, of which the handler only uses
    whether it returns or raises. *)
Variable json_loads : pystr -> exc + unit.

Definition send_error_response (message : pystr) : M unit :=
  send_response 500 ;;
  send_header (lit "Content-Type") (lit "application/json") ;;
  end_headers ;;
  timestamp <- time_ms ;;
  let error_response := mkEnvelope (lit "error") message timestamp in
  data <- lift (encode_utf8 (json_dumps error_response)) ;;
  wfile_write data.

Definition do_GET (path : pystr) : M unit :=
  if existsb (str_eqb path) [lit "/"; lit "/health"] then
    try_except
      (result <- subprocess_run [PROBE_PATH] 10 ;;
       if returncode result =? 0 then
         let output := clean_output (stdout result) in
         try_except
           (lift (json_loads output) ;;
            send_response 200 ;;
            send_header (lit "Content-Type") (lit "application/json") ;;
            end_headers ;;
            data <- lift (encode_utf8 output) ;;
            wfile_write data)
           (fun e =>
              if is_JSONDecodeError e
              then Some (send_error_response (lit "Invalid JSON output from health check"))
              else None)
       else
         send_error_response (lit "Health check script failed: " ++ stderr result))
      (fun e =>
         if is_TimeoutExpired e
         then Some (send_error_response (lit "Health check timed out"))
         else Some (send_error_response (lit "Health check error: " ++ exc_str e)))
  else if str_eqb path (lit "/ping") then
    send_response 200 ;;
    send_header (lit "Content-Type") (lit "text/plain") ;;
    end_headers ;;
    wfile_write (blit "pong")
  else
    send_response 404 ;;
    send_header (lit "Content-Type") (lit "application/json") ;;
    end_headers ;;
    wfile_write (bdq "{'error': 'Not found'}").

Definition do_OPTIONS : M unit :=
  send_response 200 ;;
  end_headers.

(** The dispatch of [BaseHTTPRequestHandler.handle_one_request]: the method
    [do_<command>] of the handler class if it has one, else
    [send_error(501)]. *)
Definition handle_one_request (command path : pystr) : M unit :=
  if str_eqb command (lit "GET") then do_GET path
  else if str_eqb command (lit "OPTIONS") then do_OPTIONS
  else send_error 501.

End Handler.

(** Running a computation for one request, from an empty trace. *)
Definition exec {A} (m : M A) (w : World) : (exc + A) * trace := m w [].
Definition trace_of {A} (m : M A) (w : World) : trace := snd (exec m w).

(** ** The response on the wire *)

(** A response as the client sees it; [headers] are the ones the handler
    sets itself ([send_response] adds Server and Date on its own). *)
Record Response := mkResponse {
  status : Z;
  headers : list (pystr * pystr);
  body : bytes
}.

(** The body: every remaining call must be a write. *)
Fixpoint read_body (tr : trace) : option bytes :=
  match tr with
  | [] => Some []
  | WfileWrite data :: tr' =>
      match read_body tr' with
      | Some rest => Some (data ++ rest)
      | None => None
      end
  | _ => None
  end.

(** The headers the handler sets, up to [end_headers], then the body. *)
Fixpoint read_headers (tr : trace) : option (list (pystr * pystr) * bytes) :=
  match tr with
  | SendHeader k v :: tr' =>
      match read_headers tr' with
      | Some (hs, b) => Some ((k, v) :: hs, b)
      | None => None
      end
  | EndHeaders :: tr' =>
      match read_body tr' with
      | Some b => Some ([], b)
      | None => None
      end
  | _ => None
  end.

Definition is_http (ev : event) : bool :=
  match ev with SubprocessRun _ _ => false | _ => true end.

Definition invokes_probe (ev : event) : bool := negb (is_http ev).

(** The response a trace amounts to, when it is one well-formed response:
    a status line, headers, the end of the headers, body writes. *)
Definition response_of (tr : trace) : option Response :=
  match filter is_http tr with
  | SendResponse code :: tr' =>
      match read_headers tr' with
      | Some (hs, b) => Some (mkResponse code hs b)
      | None => None
      end
  | _ => None
  end.

(** The response with the error envelope for [message] at clock reading
    [ts]. *)
Definition error_response (message : pystr) (ts : Z) : Response :=
  mkResponse 500 [(lit "Content-Type", lit "application/json")]
    (utf8_bytes (json_dumps (mkEnvelope (lit "error") message ts))).

(** ** json.loads as a recogniser *)

(** The documents [json.loads] accepts with its default settings: the
    grammar of the decoder ([scan_once], [JSONObject], [JSONArray],
    [scanstring] in strict mode, the number pattern and the constants
    [NaN], [Infinity], [-Infinity]), read here by a pushdown automaton that
    consumes the text one character at a time. The handler discards the
    decoded value, so none is built. The limits of the interpreter
    (recursion depth, digits of an integer) are not part of the grammar;
    [JsonLimits] adds them. *)
Module JsonLoads.

Local Open Scope N_scope.

Definition ch (a : ascii) : pychar := N_of_ascii a.
Arguments ch a%_char.

Inductive container := InArray | InObject.

Inductive state :=
| ExpectValue
| ExpectValueOrEnd
| ExpectKeyOrEnd
| ExpectKey
| ExpectColon
| AfterValue
| InString (key : bool)
| InEscape (key : bool)
| InHex (key : bool) (more : nat)
| InLiteral (rest : pystr)
| NumMinus
| NumZero
| NumInt
| NumDot
| NumFrac
| NumExp
| NumExpSign
| NumExpDigits.

(** WHITESPACE_STR of json.decoder *)
Definition is_ws (c : pychar) : bool :=
  (c =? 32) || (c =? 9) || (c =? 10) || (c =? 13).

Definition is_digit (c : pychar) : bool := (48 <=? c) && (c <=? 57).
Definition is_digit19 (c : pychar) : bool := (49 <=? c) && (c <=? 57).
Definition is_hex (c : pychar) : bool :=
  is_digit c || ((97 <=? c) && (c <=? 102)) || ((65 <=? c) && (c <=? 70)).
Definition is_exp (c : pychar) : bool := (c =? ch "e") || (c =? ch "E").

Definition config := (state * list container)%type.

(** The first character of a value. *)
Definition start_value (c : pychar) (stack : list container) : option config :=
  if c =? DQUOTE then Some (InString false, stack)
  else if c =? ch "{" then Some (ExpectKeyOrEnd, InObject :: stack)
  else if c =? ch "[" then Some (ExpectValueOrEnd, InArray :: stack)
  else if c =? ch "n" then Some (InLiteral (lit "ull"), stack)
  else if c =? ch "t" then Some (InLiteral (lit "rue"), stack)
  else if c =? ch "f" then Some (InLiteral (lit "alse"), stack)
  else if c =? ch "N" then Some (InLiteral (lit "aN"), stack)
  else if c =? ch "I" then Some (InLiteral (lit "nfinity"), stack)
  else if c =? ch "-" then Some (NumMinus, stack)
  else if c =? ch "0" then Some (NumZero, stack)
  else if is_digit19 c then Some (NumInt, stack)
  else None.

(** The character that follows a complete value. *)
Definition after_value (c : pychar) (stack : list container) : option config :=
  if is_ws c then Some (AfterValue, stack)
  else if c =? ch "," then
    match stack with
    | InArray :: _ => Some (ExpectValue, stack)
    | InObject :: _ => Some (ExpectKey, stack)
    | [] => None
    end
  else if c =? ch "]" then
    match stack with
    | InArray :: stack' => Some (AfterValue, stack')
    | _ => None
    end
  else if c =? ch "}" then
    match stack with
    | InObject :: stack' => Some (AfterValue, stack')
    | _ => None
    end
  else None.

Definition step (st : state) (stack : list container) (c : pychar) : option config :=
  match st with
  | ExpectValue =>
      if is_ws c then Some (ExpectValue, stack) else start_value c stack
  | ExpectValueOrEnd =>
      if is_ws c then Some (ExpectValueOrEnd, stack)
      else if c =? ch "]" then Some (AfterValue, tl stack)
      else start_value c stack
  | ExpectKeyOrEnd =>
      if is_ws c then Some (ExpectKeyOrEnd, stack)
      else if c =? ch "}" then Some (AfterValue, tl stack)
      else if c =? DQUOTE then Some (InString true, stack)
      else None
  | ExpectKey =>
      if is_ws c then Some (ExpectKey, stack)
      else if c =? DQUOTE then Some (InString true, stack)
      else None
  | ExpectColon =>
      if is_ws c then Some (ExpectColon, stack)
      else if c =? ch ":" then Some (ExpectValue, stack)
      else None
  | AfterValue => after_value c stack
  | InString key =>
      if c =? DQUOTE then Some (if key then ExpectColon else AfterValue, stack)
      else if c =? BACKSLASH then Some (InEscape key, stack)
      else if c <? 32 then None
      else Some (InString key, stack)
  | InEscape key =>
      if (c =? DQUOTE) || (c =? BACKSLASH) || (c =? ch "/") || (c =? ch "b")
         || (c =? ch "f") || (c =? ch "n") || (c =? ch "r") || (c =? ch "t")
      then Some (InString key, stack)
      else if c =? ch "u" then Some (InHex key 4, stack)
      else None
  | InHex key more =>
      if is_hex c then
        match more with
        | S (S more') => Some (InHex key (S more'), stack)
        | _ => Some (InString key, stack)
        end
      else None
  | InLiteral rest =>
      match rest with
      | x :: nil => if c =? x then Some (AfterValue, stack) else None
      | x :: rest' => if c =? x then Some (InLiteral rest', stack) else None
      | nil => None
      end
  | NumMinus =>
      if c =? ch "0" then Some (NumZero, stack)
      else if is_digit19 c then Some (NumInt, stack)
      else if c =? ch "I" then Some (InLiteral (lit "nfinity"), stack)
      else None
  | NumZero =>
      if c =? ch "." then Some (NumDot, stack)
      else if is_exp c then Some (NumExp, stack)
      else after_value c stack
  | NumInt =>
      if is_digit c then Some (NumInt, stack)
      else if c =? ch "." then Some (NumDot, stack)
      else if is_exp c then Some (NumExp, stack)
      else after_value c stack
  | NumDot => if is_digit c then Some (NumFrac, stack) else None
  | NumFrac =>
      if is_digit c then Some (NumFrac, stack)
      else if is_exp c then Some (NumExp, stack)
      else after_value c stack
  | NumExp =>
      if (c =? ch "+") || (c =? ch "-") then Some (NumExpSign, stack)
      else if is_digit c then Some (NumExpDigits, stack)
      else None
  | NumExpSign => if is_digit c then Some (NumExpDigits, stack) else None
  | NumExpDigits =>
      if is_digit c then Some (NumExpDigits, stack) else after_value c stack
  end.

(** The states between two tokens, the only ones in which whitespace is
    read. *)
Definition at_token_boundary (st : state) : bool :=
  match st with
  | ExpectValue | ExpectValueOrEnd | ExpectKeyOrEnd | ExpectKey
  | ExpectColon | AfterValue => true
  | _ => false
  end.

(** Every character of [s] is a letter or beyond: none is a control
    character, a blank or a slash. *)
Definition letters (s : pystr) : bool := forallb (fun c => 65 <=? c) s.

(** The literal a state is in the middle of is made of such characters. *)
Definition wf_state (st : state) : bool :=
  match st with
  | InLiteral rest => letters rest
  | _ => true
  end.

(** At the end of the text a value must be complete and nothing open. *)
Definition accepting (st : state) (stack : list container) : bool :=
  match stack, st with
  | [], (AfterValue | NumZero | NumInt | NumFrac | NumExpDigits) => true
  | _, _ => false
  end.

Fixpoint run (st : state) (stack : list container) (s : pystr) : bool :=
  match s with
  | [] => accepting st stack
  | c :: s' =>
      match step st stack c with
      | Some (st', stack') => run st' stack' s'
      | None => false
      end
  end.

Definition json_valid (s : pystr) : bool := run ExpectValue [] s.

(** [json.loads] on text that stays clear of the interpreter's limits, as
    far as the handler observes it: it returns on a valid document and
    raises [JSONDecodeError] otherwise. The text of the error depends on the
    position of the fault and is left to [describe]. The limits are added in
    [JsonLimits] below. *)
Definition py_json_loads (describe : pystr -> pystr) (s : pystr) : exc + unit :=
  if json_valid s then inr tt
  else inl (mkExc JSONDecodeError (describe s)).

End JsonLoads.
Export JsonLoads.

(** ** The sanitisation step in the words of the specification *)

(** Strip the stdout; if the stripped text contains the sentinel marker,
    drop every line that begins with the probe's invocation path, join the
    rest again and strip once more. *)
Definition sanitize_spec (stdout : pystr) : pystr :=
  let stripped := strip stdout in
  if contains (lit "EOF") stripped then
    strip (join [LF]
             (filter (fun line => negb (startswith PROBE_PATH line))
                     (split LF stripped)))
  else stripped.

(** Text as the strict decoder of [subprocess.run(text=True)] delivers it:
    no surrogate code points. *)
Definition well_decoded (s : pystr) : bool :=
  forallb (fun c => negb (is_surrogate c)) s.

Definition is_ascii (c : pychar) : bool := (c <? 128)%N.

(** No line of [s] begins with the probe's invocation path. *)
Definition no_probe_line (s : pystr) : bool :=
  forallb (fun line => negb (startswith PROBE_PATH line)) (split LF s).

(** The test of the clean-up loop: the line is kept. *)
Definition keeps (line : pystr) : bool := negb (startswith PROBE_PATH line).

(** The calls [send_error_response message] makes at clock reading [ts]. *)
Definition error_events (message : pystr) (ts : Z) : trace :=
  [SendResponse 500;
   SendHeader (lit "Content-Type") (lit "application/json");
   EndHeaders;
   WfileWrite (utf8_bytes (json_dumps (mkEnvelope (lit "error") message ts)))].

Definition HEALTH_CHECK : event := SubprocessRun [PROBE_PATH] 10.

(** What [do_GET] does on the health paths, by the outcome of the probe,
    of the validation and of the encoding. *)
Definition health_run (json_loads : pystr -> exc + unit) (w : World) : (exc + unit) * trace :=
  match probe w with
  | Raised e =>
      (inr tt,
       HEALTH_CHECK ::
       error_events (if is_TimeoutExpired e then lit "Health check timed out"
                     else lit "Health check error: " ++ exc_str e) (now_ms w))
  | Completed result =>
      if (returncode result =? 0)%Z then
        let output := clean_output (stdout result) in
        match json_loads output with
        | inr _ =>
            match encode_utf8 output with
            | inr data =>
                (inr tt,
                 [HEALTH_CHECK; SendResponse 200;
                  SendHeader (lit "Content-Type") (lit "application/json");
                  EndHeaders; WfileWrite data])
            | inl e =>
                (inr tt,
                 [HEALTH_CHECK; SendResponse 200;
                  SendHeader (lit "Content-Type") (lit "application/json");
                  EndHeaders]
                 ++ error_events (lit "Health check error: " ++ exc_str e) (now_ms w))
            end
        | inl e =>
            (inr tt,
             HEALTH_CHECK ::
             error_events
               (if is_JSONDecodeError e then lit "Invalid JSON output from health check"
                else if is_TimeoutExpired e then lit "Health check timed out"
                else lit "Health check error: " ++ exc_str e) (now_ms w))
        end
      else
        (inr tt,
         HEALTH_CHECK ::
         error_events (lit "Health check script failed: " ++ stderr result) (now_ms w))
  end.

(** The header both JSON responses carry. *)
Definition JSON_TYPE : list (pystr * pystr) :=
  [(lit "Content-Type", lit "application/json")].

(** The response to one request: the handler run from an empty trace and
    its calls read as a response. *)
Definition respond (json_loads : pystr -> exc + unit) (command path : pystr)
    (w : World) : option Response :=
  response_of (trace_of (handle_one_request json_loads command path) w).

(** The decoder's error text for a document that starts no value. *)
Definition expecting_value (_ : pystr) : pystr :=
  lit "Expecting value: line 1 column 1 (char 0)".

Definition GET : pystr := lit "GET".
Definition OPTIONS : pystr := lit "OPTIONS".

(** ** Further notions for the endpoint *)

(** How often a trace runs the probe. *)
Definition probe_runs (tr : trace) : nat := List.length (filter invokes_probe tr).

(** [a] is [b] with some characters left out. *)
Inductive subseq : pystr -> pystr -> Prop :=
| subseq_nil : subseq [] []
| subseq_keep (c : pychar) (a b : pystr) : subseq a b -> subseq (c :: a) (c :: b)
| subseq_drop (c : pychar) (a b : pystr) : subseq a b -> subseq a (c :: b).

(** The configuration the recogniser reaches on a piece of text. *)
Fixpoint steps (st : state) (stack : list container) (s : pystr) : option config :=
  match s with
  | [] => Some (st, stack)
  | c :: s' =>
      match step st stack c with
      | Some (st', stack') => steps st' stack' s'
      | None => None
      end
  end.

(** ** Python [int] and its text *)

Module PyInt.

Local Open Scope N_scope.

Section Interpreter.

(** [Py_UNICODE_TODECIMAL] of the Unicode database, consulted for the
    characters from 127 on: the value of a decimal digit of any script. *)
Variable todecimal : pychar -> option N.

(** [sys.get_int_max_str_digits()]: the cap on the digits of an [int]
    converted from or to text; 0 when there is none. *)
Variable max_str_digits : nat.

(** [Py_ISSPACE]: the blanks [PyLong_FromString] skips. *)
Definition c_isspace (c : pychar) : bool := (c =? 32) || ((9 <=? c) && (c <=? 13)).

(** [_PyUnicode_TransformDecimalAndSpaceToASCII]: ASCII text is taken as it
    is; otherwise Unicode blanks become a space, decimal digits their ASCII
    digit, and the first character that is neither ends the text with a
    question mark. *)
Fixpoint transform (s : pystr) : pystr :=
  match s with
  | [] => []
  | c :: s' =>
      if c <? 127 then c :: transform s'
      else if isspace c then 32 :: transform s'
      else match todecimal c with
           | Some d => (48 + d) :: transform s'
           | None => [63]
           end
  end.

Definition to_ascii_decimal (s : pystr) : pystr :=
  if forallb (fun c => c <? 128) s then s else transform s.

Fixpoint skip_blanks (s : pystr) : pystr :=
  match s with
  | [] => []
  | c :: s' => if c_isspace c then skip_blanks s' else s
  end.

Definition digit (c : pychar) (d : Decimal.uint) : Decimal.uint :=
  match c - 48 with
  | 0 => Decimal.D0 d
  | 1 => Decimal.D1 d
  | 2 => Decimal.D2 d
  | 3 => Decimal.D3 d
  | 4 => Decimal.D4 d
  | 5 => Decimal.D5 d
  | 6 => Decimal.D6 d
  | 7 => Decimal.D7 d
  | 8 => Decimal.D8 d
  | _ => Decimal.D9 d
  end.

(** The digit loop of [PyLong_FromString]: digits, with single underscores
    between them; the result is the numeral read and the text left. *)
Fixpoint scan_digits (prev_underscore : bool) (s : pystr)
    : option (Decimal.uint * pystr) :=
  match s with
  | [] => if prev_underscore then None else Some (Decimal.Nil, [])
  | c :: s' =>
      if (48 <=? c) && (c <=? 57) then
        match scan_digits false s' with
        | Some (d, rest) => Some (digit c d, rest)
        | None => None
        end
      else if c =? 95 then
        if prev_underscore then None else scan_digits true s'
      else if prev_underscore then None else Some (Decimal.Nil, s)
  end.

(** The cap applies above 640 digits only. *)
Definition over_limit (digits : nat) : bool :=
  (Nat.ltb 640 digits && Nat.ltb 0 max_str_digits && Nat.ltb max_str_digits digits)%bool.

(** The sign in front of the digits. *)
Definition read_sign (s : pystr) : bool * pystr :=
  match s with
  | c :: s' =>
      if c =? 43 then (false, s')
      else if c =? 45 then (true, s')
      else (false, s)
  | [] => (false, s)
  end.

(** [PyLong_FromString] in base 10; [None] is [ValueError]. The digits may
    not start with an underscore, there must be one at least, and only
    blanks may follow them. *)
Definition long_from_string (s : pystr) : option Z :=
  let '(negative, s) := read_sign (skip_blanks s) in
  if startswith [95] s then None
  else
    match scan_digits false s with
    | Some (d, rest) =>
        match d with
        | Decimal.Nil => None
        | _ =>
            if over_limit (Decimal.nb_digits d) then None
            else if forallb c_isspace rest then
              Some (Z.of_int (if negative then Decimal.Neg d else Decimal.Pos d))
            else None
        end
    | None => None
    end.

(** [int(s)] for a [str]; [None] is [ValueError]. *)
Definition py_int (s : pystr) : option Z := long_from_string (to_ascii_decimal s).

(** [str(n)], as an f-string formats an [int]; [None] is [ValueError]. *)
Definition py_str (n : Z) : option pystr :=
  let text := str_of_int n in
  let digits := (List.length text - (if (n <? 0)%Z then 1 else 0))%nat in
  if over_limit digits then None else Some text.

End Interpreter.

(** The decimal digits of Unicode 14.0, the database of CPython 3.11: every
    script has them in one run ZERO..NINE, listed here by its first code
    point. *)
Definition DIGIT_ZEROS : list N :=
  [48; 1632; 1776; 1984; 2406; 2534; 2662; 2790; 2918; 3046; 3174; 3302; 3430;
   3558; 3664; 3792; 3872; 4160; 4240; 6112; 6160; 6470; 6608; 6784; 6800; 6992;
   7088; 7232; 7248; 42528; 43216; 43264; 43472; 43504; 43600; 44016; 65296;
   66720; 68912; 69734; 69872; 69942; 70096; 70384; 70736; 70864; 71248; 71360;
   71472; 71904; 72016; 72784; 73040; 73120; 92768; 92864; 93008; 120782;
   120792; 120802; 120812; 120822; 123200; 123632; 125264; 130032].

Definition some_digits (c : pychar) : option N :=
  match find (fun zero => (zero <=? c) && (c <=? zero + 9)) DIGIT_ZEROS with
  | Some zero => Some (c - zero)
  | None => None
  end.

End PyInt.
Export PyInt.

(** ** [json.loads] within the limits of the interpreter *)

(** The decoder of CPython 3.11 ([Modules/_json.c] under [json/decoder.py])
    enters a recursive call for every container it opens and hands every
    integer to [int]. Beside the grammar it therefore has two limits: the
    levels of recursion the interpreter has left, and the digits [int]
    converts. The text is read from left to right and the first failure met
    is the one raised. Creating a [JSONDecodeError] takes three levels of
    recursion itself, and one of the constants [NaN], [Infinity],
    [-Infinity] takes one (the call of [parse_constant]); where they are not
    left the outcome is a [RecursionError] too. *)
Module JsonLimits.

Local Open Scope N_scope.

Inductive failure :=
| NotJSON
| TooDeep (opened : container)
| NoRoom (spare : nat)
| TooManyDigits (digits : nat).

(** Who raises the [JSONDecodeError]: the scanner, inside the containers
    open at that moment; [raw_decode], on the scanner's [StopIteration]
    (Expecting value); or [decode], on text after the document (Extra
    data). *)
Inductive raiser := ByScanner | ByRawDecode | ByDecode.

Definition raised_by (st : state) (stack : list container) : raiser :=
  match st with
  | ExpectValue | ExpectValueOrEnd | NumMinus | InLiteral _ => ByRawDecode
  | ExpectKeyOrEnd | ExpectKey | ExpectColon
  | InString _ | InEscape _ | InHex _ _ => ByScanner
  | AfterValue | NumZero | NumInt | NumDot | NumFrac
  | NumExp | NumExpSign | NumExpDigits =>
      match stack with
      | [] => ByDecode
      | _ :: _ => ByScanner
      end
  end.

(** Inside a number, past its first digit. *)
Definition in_number (st : state) : bool :=
  match st with
  | NumZero | NumInt | NumDot | NumFrac | NumExp | NumExpSign | NumExpDigits => true
  | _ => false
  end.

(** The number pattern takes a fraction or an exponent only when it is
    complete; a number with neither is an integer, converted by [int]. *)
Definition integer_so_far (st : state) (has_frac : bool) : bool :=
  match st with
  | NumZero | NumInt | NumDot => true
  | NumExp | NumExpSign => negb has_frac
  | _ => false
  end.

(** The digits of the integer part read so far. *)
Definition count_digits (st st' : state) (digits : nat) : nat :=
  match st' with
  | NumZero => 1%nat
  | NumInt => match st with NumInt => S digits | _ => 1%nat end
  | _ => digits
  end.

Definition seen_frac (st' : state) (has_frac : bool) : bool :=
  match st' with
  | NumFrac => true
  | NumDot | NumExp | NumExpSign | NumExpDigits => has_frac
  | _ => false
  end.

(** The container a step has opened. *)
Definition opened_by (stack stack' : list container) : option container :=
  if (List.length stack <? List.length stack')%nat then hd_error stack' else None.

(** The step completes [NaN], [Infinity] or [-Infinity]. *)
Definition completes_constant (st : state) (c : pychar) : bool :=
  match st with
  | InLiteral [x] => (c =? x) && ((x =? ch "N") || (x =? ch "y"))
  | _ => false
  end.

(** [RecursionError] and [ValueError] are of no class the handler names. *)
Definition failure_class (f : failure) : exc_class :=
  match f with
  | NotJSON => JSONDecodeError
  | TooDeep _ | NoRoom _ | TooManyDigits _ => OtherException
  end.

Section Decoder.

(** The containers the decoder can open inside one another where it is
    called: the levels the recursion limit leaves above the call of the
    scanner. *)
Variable max_depth : nat.

(** [sys.get_int_max_str_digits()] *)
Variable max_str_digits : nat.

(** The number ends before the next character (or the end of the text), is
    an integer and [int] refuses it. *)
Definition int_refused (st : state) (has_frac : bool) (digits : nat)
    (next : option config) : bool :=
  integer_so_far st has_frac
  && negb (match next with Some (st', _) => in_number st' | None => false end)
  && over_limit max_str_digits digits.

(** The levels left where the [JSONDecodeError] is created. *)
Definition spare_levels (who : raiser) (depth : nat) : nat :=
  match who with
  | ByScanner => (max_depth - depth)%nat
  | ByRawDecode => (max_depth + 1)%nat
  | ByDecode => (max_depth + 2)%nat
  end.

(** The text is outside the grammar in state [st]. *)
Definition syntax_failure (st : state) (stack : list container) : failure :=
  let spare := spare_levels (raised_by st stack) (List.length stack) in
  if (spare <? 3)%nat then NoRoom spare else NotJSON.

Fixpoint run_limited (st : state) (stack : list container) (digits : nat)
    (has_frac : bool) (s : pystr) : failure + unit :=
  match s with
  | [] =>
      if int_refused st has_frac digits None then inl (TooManyDigits digits)
      else if accepting st stack then inr tt
      else inl (syntax_failure st stack)
  | c :: s' =>
      let next := step st stack c in
      if int_refused st has_frac digits next then inl (TooManyDigits digits)
      else
        match next with
        | None => inl (syntax_failure st stack)
        | Some (st', stack') =>
            match opened_by stack stack' with
            | Some opened =>
                if (max_depth <? List.length stack')%nat then inl (TooDeep opened)
                else run_limited st' stack' (count_digits st st' digits)
                       (seen_frac st' has_frac) s'
            | None =>
                if completes_constant st c && (max_depth <=? List.length stack)%nat
                then inl (NoRoom 0%nat)
                else run_limited st' stack' (count_digits st st' digits)
                       (seen_frac st' has_frac) s'
            end
        end
  end.

(** [json.loads] refuses a byte order mark before it decodes. *)
Definition loads_limited (s : pystr) : failure + unit :=
  if startswith [65279] s then inl NotJSON
  else run_limited ExpectValue [] 0%nat false s.

(** [str(e)] of the exception; the text of a [JSONDecodeError] is left to
    [describe]. *)
Definition failure_text (describe : pystr -> pystr) (f : failure) (s : pystr) : pystr :=
  match f with
  | NotJSON => describe s
  | TooDeep InArray =>
      lit "maximum recursion depth exceeded while decoding a JSON array from a unicode string"
  | TooDeep InObject =>
      lit "maximum recursion depth exceeded while decoding a JSON object from a unicode string"
  | NoRoom 1%nat => lit "maximum recursion depth exceeded"
  | NoRoom _ => lit "maximum recursion depth exceeded while calling a Python object"
  | TooManyDigits digits =>
      lit "Exceeds the limit (" ++ str_of_nat max_str_digits
      ++ lit " digits) for integer string conversion: value has " ++ str_of_nat digits
      ++ lit " digits; use sys.set_int_max_str_digits() to increase the limit"
  end.

(** [json.loads] of CPython 3.11. *)
Definition cpython_json_loads (describe : pystr -> pystr) (s : pystr) : exc + unit :=
  match loads_limited s with
  | inr _ => inr tt
  | inl f => inl (mkExc (failure_class f) (failure_text describe f s))
  end.

End Decoder.

End JsonLimits.
Export JsonLimits.

(** ** shift_dates.py *)

Module ShiftDates.

(** [os.environ]: the variables in order, each name once. *)
Definition environ := list (pystr * pystr).

Fixpoint env_get (name : pystr) (env : environ) : option pystr :=
  match env with
  | [] => None
  | (k, v) :: env' => if str_eqb name k then Some v else env_get name env'
  end.

Fixpoint env_set (name value : pystr) (env : environ) : environ :=
  match env with
  | [] => [(name, value)]
  | (k, v) :: env' =>
      if str_eqb name k then (k, value) :: env' else (k, v) :: env_set name value env'
  end.

(** How the script ends: [sys.exit(code)], the end of the file, or an
    exception nothing catches. *)
Inductive outcome :=
| SysExit (code : Z) (env : environ)
| Finished (env : environ)
| Uncaught (env : environ).

Definition final_env (o : outcome) : environ :=
  match o with
  | SysExit _ env | Finished env | Uncaught env => env
  end.

(** [s.split(sep, 1)] for a separator of one character. *)
Fixpoint split_once (sep : pychar) (s : pystr) : list pystr :=
  match s with
  | [] => [[]]
  | c :: s' =>
      if (c =? sep)%N then [[]; s']
      else match split_once sep s' with
           | [] => [[c]]
           | l :: ls => (c :: l) :: ls
           end
  end.

Definition AT : pychar := 64%N.

Definition SKIP_MESSAGE : pystr :=
  lit "feat: add Meilisearch and NATS configuration for search and messaging".

Definition GIT_COMMIT_MESSAGE : pystr := lit "GIT_COMMIT_MESSAGE".
Definition GIT_AUTHOR_DATE : pystr := lit "GIT_AUTHOR_DATE".
Definition GIT_COMMITTER_DATE : pystr := lit "GIT_COMMITTER_DATE".

(** 120 days in seconds *)
Definition SHIFT : Z := 10368000.

Section Script.

Variable todecimal : pychar -> option N.
Variable max_str_digits : nat.

(** Whether [os.environ[name] = value] takes the value: it raises
    [ValueError] for one the process environment cannot hold (an embedded
    NUL, a character the file system encoding lacks). *)
Variable environ_accepts : pystr -> bool.

(** Lines 13-24 for GIT_AUTHOR_DATE and lines 27-38 for GIT_COMMITTER_DATE:
    the same block for the variable [name]. [None] is the [ValueError] of
    the unpacking outside the [try]; every [ValueError] inside it is
    passed over. *)
Definition shift_date (name : pystr) (env : environ) : option environ :=
  match env_get name env with
  | None => Some env
  | Some date =>
      if contains [AT] date then
        match split_once AT date with
        | [timestamp_part; timezone_part] =>
            let timestamp_part := strip timestamp_part in
            match py_int todecimal max_str_digits timestamp_part with
            | Some timestamp =>
                let new_timestamp := (timestamp + SHIFT)%Z in
                match py_str max_str_digits new_timestamp with
                | Some text =>
                    let value := text ++ lit " @" ++ timezone_part in
                    if environ_accepts value then Some (env_set name value env)
                    else Some env
                | None => Some env
                end
            | None => Some env
            end
        | _ => None
        end
      else Some env
  end.

Definition shift_dates (env : environ) : outcome :=
  let commit_message :=
    match env_get GIT_COMMIT_MESSAGE env with
    | Some m => m
    | None => []
    end in
  if contains SKIP_MESSAGE commit_message then SysExit 0 env
  else
    match shift_date GIT_AUTHOR_DATE env with
    | None => Uncaught env
    | Some env1 =>
        match shift_date GIT_COMMITTER_DATE env1 with
        | None => Uncaught env1
        | Some env2 => Finished env2
        end
    end.

End Script.

(** The commit message does not hold the text that makes the script stop. *)
Definition not_skipped (env : environ) : Prop :=
  forall message,
    env_get GIT_COMMIT_MESSAGE env = Some message ->
    contains SKIP_MESSAGE message = false.

End ShiftDates.

(** ** modify_dates.py *)

Module ModifyDates.

(** The exception [modify_commit_date] lets through. *)
Inductive raised := IndexError.

(** [s.split()]: the maximal runs of characters that are not whitespace.
    The helper returns the run its argument starts with and the runs after
    it. *)
Fixpoint split_ws_aux (s : pystr) : pystr * list pystr :=
  match s with
  | [] => ([], [])
  | c :: s' =>
      let '(word, words) := split_ws_aux s' in
      if isspace c then
        ([], match word with [] => words | _ => word :: words end)
      else (c :: word, words)
  end.

Definition split_ws (s : pystr) : list pystr :=
  let '(word, words) := split_ws_aux s in
  match word with [] => words | _ => word :: words end.

(** No character of [s] is whitespace. *)
Definition plain (s : pystr) : bool := forallb (fun c => negb (isspace c)) s.

Definition SKIP_COMMIT : pystr := lit "67315cadb346c5d12981f6c9401ff72a98742a1b".

Section Script.

Variable todecimal : pychar -> option N.
Variable max_str_digits : nat.

(** Lines 33-42 for one timestamp: [datetime.fromtimestamp], plus
    [timedelta(days=120)], [timestamp()] and [int], all in the local time
    zone of the machine; [None] when the datetime module raises. *)
Variable add_120_days : Z -> option Z.

Definition option_bind {A B} (o : option A) (k : A -> option B) : option B :=
  match o with
  | Some a => k a
  | None => None
  end.

(** The suite of the [try]; [None] is any exception, all of which the
    [except Exception] clause catches. *)
Definition shifted_dates (author_date committer_date : pystr) : option pystr :=
  let author_parts := split_ws author_date in
  let committer_parts := split_ws committer_date in
  option_bind (nth_error author_parts 0) (fun author_text =>
  option_bind (py_int todecimal max_str_digits author_text) (fun author_timestamp =>
  option_bind (nth_error author_parts 1) (fun author_timezone =>
  option_bind (nth_error committer_parts 0) (fun committer_text =>
  option_bind (py_int todecimal max_str_digits committer_text) (fun committer_timestamp =>
  option_bind (nth_error committer_parts 1) (fun committer_timezone =>
  option_bind (add_120_days author_timestamp) (fun author_new_timestamp =>
  option_bind (add_120_days committer_timestamp) (fun committer_new_timestamp =>
  option_bind (py_str max_str_digits author_new_timestamp) (fun author_new =>
  option_bind (py_str max_str_digits committer_new_timestamp) (fun committer_new =>
  Some (author_new ++ lit " " ++ author_timezone ++ [LF]
        ++ committer_new ++ lit " " ++ committer_timezone))))))))))).

Definition modify_commit_date (commit_info : pystr) : raised + pystr :=
  let lines := split LF (strip commit_info) in
  match nth_error lines 0, nth_error lines 1, nth_error lines 2 with
  | Some commit_hash, Some author_date, Some committer_date =>
      if str_eqb commit_hash SKIP_COMMIT then
        inr (author_date ++ [LF] ++ committer_date)
      else
        match shifted_dates author_date committer_date with
        | Some dates => inr dates
        | None => inr (author_date ++ [LF] ++ committer_date)
        end
  | _, _, _ => inl IndexError
  end.

End Script.

(** An instance: the arithmetic of the datetime module of CPython 3.11 on
    Linux when the local time zone is UTC. [fromtimestamp] takes the
    timestamps from the second day of year 1 on, and the shifted date must
    not pass the last second of year 9999; elsewhere the module raises. *)
Definition add_120_days_utc (timestamp : Z) : option Z :=
  if ((-62135510400 <=? timestamp) && (timestamp + 10368000 <=? 253402300799))%Z
  then Some (timestamp + 10368000)%Z
  else None.

End ModifyDates.

(** * Examples

    The operations on the inputs the endpoint meets. *)

Example strip_ex : strip (lit "  ab c ") = lit "ab c".
Proof. reflexivity. Qed.
Example split_ex :
  split LF (lit "a" ++ [LF; LF] ++ lit "bc" ++ [LF]) = [lit "a"; []; lit "bc"; []].
Proof. reflexivity. Qed.
Example join_ex :
  join [LF] [lit "a"; []; lit "bc"; []] = lit "a" ++ [LF; LF] ++ lit "bc" ++ [LF].
Proof. reflexivity. Qed.
Example contains_ex :
  List.map (contains (lit "EOF")) [lit "wanted EOF here"; lit "EO F"; lit "eof"; []]
  = [true; false; false; false].
Proof. reflexivity. Qed.
Example clean_output_ex :
  clean_output (lit "  [1, 2]  " ++ [LF]) = lit "[1, 2]".
Proof. reflexivity. Qed.
Example dumps_ex :
  json_dumps (mkEnvelope (lit "error") (dq "a'b" ++ [10; 233; 128512]%N) 1700000000123)
  = dq "{'status': 'error', 'message': 'a\'b\n" ++ BACKSLASH :: lit "u00e9"
      ++ BACKSLASH :: lit "ud83d" ++ BACKSLASH :: lit "ude00"
      ++ dq "', 'timestamp': 1700000000123}".
Proof. reflexivity. Qed.
Example utf8_ex : encode_utf8 [233; 8364; 128512]%N
  = inr (List.map byte_of_N [195; 169; 226; 130; 172; 240; 159; 152; 128]%N).
Proof. reflexivity. Qed.
Example utf8_err_ex : encode_utf8 (lit "ab" ++ [56448]%N)
  = inl (mkExc UnicodeEncodeError
      (lit "'utf-8' codec can't encode character '" ++ BACKSLASH
         :: lit "udc80' in position 2: surrogates not allowed")).
Proof. reflexivity. Qed.

Example json_ok1 : json_valid (dq "{'status':'ok'}") = true.
Proof. reflexivity. Qed.
Example json_ok2 :
  json_valid (dq " {'a': [1, -2.5e+10, true, null, {}, [], 'x\n\/'], 'b': {'c': -Infinity}} ") = true.
Proof. reflexivity. Qed.
Example json_bad1 :
  List.map json_valid
    [[]; lit "not json"; lit "01"; lit "1."; lit "[1,]"; dq "{'a':1,}"; dq "{'a' 1}";
     lit "[1 2]"; lit "1 2"; dq "'a"; dq "{a:1}"; lit "-"; lit "tru"; lit "[[]"; lit "]";
     dq "'\x'"; lit "1e"; lit "nullx"]
  = List.repeat false 18.
Proof. reflexivity. Qed.
Example json_ok3 :
  List.map json_valid
    [lit "0"; lit "-0"; lit "1e5"; lit "0.5E-3"; lit "NaN"; lit "[ ]"; lit "{ }"; dq "' '";
     lit " true "; dq "[{'k' : [ ] } , 3]"]
  = List.repeat true 10.
Proof. reflexivity. Qed.

(** Three levels of recursion left to the decoder, and the default cap on
    the digits. *)
Example loads_limited_ex :
  List.map (loads_limited 3 4300)
    [lit "[[[1]]]"; lit "[[[[1]]]]"; dq "[[[{'a': 1}]]]"; lit "[[[x"; lit "[[["; lit "[[[1 1";
     lit "[1 1"; lit "[[1."; lit "1 1"; lit "[[NaN]]"; lit "[[[NaN]]]";
     lit "[[" ++ List.repeat (ch "1") 4301 ++ lit "]]";
     lit "[[[" ++ List.repeat (ch "1") 4301 ++ lit ".5]]]"]
  = [inr tt; inl (TooDeep InArray); inl (TooDeep InObject); inl NotJSON; inl NotJSON;
     inl (NoRoom 0); inl (NoRoom 2); inl (NoRoom 1); inl NotJSON; inr tt; inl (NoRoom 0);
     inl (TooManyDigits 4301); inr tt].
Proof. vm_compute. reflexivity. Qed.
Example cpython_json_loads_ex :
  List.map (cpython_json_loads 980 4300 expecting_value)
    [dq "{'status':'ok'}"; lit "not json"; List.repeat (ch "[") 980 ++ lit "{";
     List.repeat (ch "1") 4301 ++ lit "x"]
  = [inr tt;
     inl (mkExc JSONDecodeError (lit "Expecting value: line 1 column 1 (char 0)"));
     inl (mkExc OtherException
            (lit "maximum recursion depth exceeded while decoding a JSON object from a unicode string"));
     inl (mkExc OtherException
            (lit "Exceeds the limit (4300 digits) for integer string conversion: value has 4301 digits; use sys.set_int_max_str_digits() to increase the limit"))].
Proof. vm_compute. reflexivity. Qed.

Example py_int_ex :
  List.map (py_int some_digits 4300)
    [lit "1700000000"; lit "-42"; lit "+7"; lit " 12 "; lit "1_000"; lit "007";
     [1633; 1634]%N; [65297; 160]%N]
  = [Some 1700000000; Some (-42); Some 7; Some 12; Some 1000; Some 7; Some 12; Some 1]%Z.
Proof. reflexivity. Qed.
Example py_int_bad :
  List.map (py_int some_digits 4300)
    [[]; lit " "; lit "12a"; lit "1__0"; lit "_1"; lit "1_"; lit "+"; lit "- 1";
     lit "1.5"; lit "0x10"; lit "1 2"; [233]%N]
  = List.repeat None 12.
Proof. reflexivity. Qed.
Example py_int_scripts :
  List.map (py_int some_digits 4300) [[2407; 2408]%N; [120783; 1777; 51]%N; [178]%N]
  = [Some 12; Some 113; None]%Z.
Proof. reflexivity. Qed.
Example py_str_ex : py_str 4300 (-1700000000) = Some (lit "-1700000000").
Proof. reflexivity. Qed.
Example env_ex :
  ShiftDates.shift_dates some_digits 4300 (fun _ => true)
    [(lit "GIT_AUTHOR_DATE", lit "1700000000 @+0800"); (lit "HOME", lit "/root");
     (lit "GIT_COMMITTER_DATE", lit "@1700000000 +0800")]
  = ShiftDates.Finished
      [(lit "GIT_AUTHOR_DATE", lit "1710368000 @+0800"); (lit "HOME", lit "/root");
       (lit "GIT_COMMITTER_DATE", lit "@1700000000 +0800")].
Proof. reflexivity. Qed.
Example split_ws_ex :
  ModifyDates.split_ws (lit "  1700000000   +0800 x ") = [lit "1700000000"; lit "+0800"; lit "x"].
Proof. reflexivity. Qed.
Example add_120_days_ex :
  List.map ModifyDates.add_120_days_utc
    [0; -62135510400; -62135510401; 253391932799; 253391932800]%Z
  = [Some 10368000; Some (-62125142400); None; Some 253402300799; None]%Z.
Proof. reflexivity. Qed.
Example modify_ex :
  ModifyDates.modify_commit_date some_digits 4300 ModifyDates.add_120_days_utc
    (lit "abc123" ++ [LF] ++ lit "1700000000 +0800" ++ [LF] ++ lit "1700000100 +0000" ++ [LF])
  = inr (lit "1710368000 +0800" ++ [LF] ++ lit "1710368100 +0000").
Proof. reflexivity. Qed.

(** * Properties *)

(** ** Strings *)

Section StringFacts.

Local Open Scope N_scope.

Lemma str_eqb_eq (a b : pystr) : str_eqb a b = true <-> a = b.
Proof.
  revert b. induction a as [|x a IH]; intros [|y b]; simpl;
    try (split; [discriminate|congruence]); [tauto|].
  rewrite andb_true_iff, N.eqb_eq, IH. split; [intros [-> ->]|intros [= -> ->]]; auto.
Qed.

Lemma str_eqb_neq (a b : pystr) : a <> b -> str_eqb a b = false.
Proof.
  intros Hne. destruct (str_eqb a b) eqn:E; [|reflexivity].
  apply str_eqb_eq in E. contradiction.
Qed.

Lemma startswith_app (p s : pystr) : startswith p (p ++ s) = true.
Proof.
  induction p as [|c p IH]; simpl; [reflexivity|].
  now rewrite N.eqb_refl, IH.
Qed.

Lemma contains_app (needle pre post : pystr) :
  contains needle (pre ++ needle ++ post) = true.
Proof.
  induction pre as [|c pre IH]; simpl.
  - destruct (needle ++ post) eqn:E; simpl; rewrite <- ?E, startswith_app;
      reflexivity.
  - rewrite IH. apply orb_true_r.
Qed.

Lemma contains_suffix (needle pre : pystr) : contains needle (pre ++ needle) = true.
Proof.
  rewrite <- (app_nil_r needle) at 2. apply contains_app.
Qed.

Lemma split_not_nil (sep : pychar) (s : pystr) : split sep s <> [].
Proof.
  destruct s as [|c s]; simpl; [discriminate|].
  destruct (c =? sep); [discriminate|].
  destruct (split sep s); discriminate.
Qed.

(** Joining the pieces of a split gives the text back. *)
Lemma join_split (sep : pychar) (s : pystr) : join [sep] (split sep s) = s.
Proof.
  induction s as [|c s IH]; simpl; [reflexivity|].
  destruct (N.eqb_spec c sep) as [->|Hne].
  - pose proof (split_not_nil sep s) as Hnil.
    destruct (split sep s) as [|l ls] eqn:E; [contradiction|].
    simpl in *. now rewrite IH.
  - pose proof (split_not_nil sep s) as Hnil.
    destruct (split sep s) as [|l ls] eqn:E; [contradiction|].
    destruct ls as [|l' ls]; simpl in *; now rewrite <- IH.
Qed.

Lemma lstrip_idem (s : pystr) : lstrip (lstrip s) = lstrip s.
Proof.
  induction s as [|c s IH]; simpl; [reflexivity|].
  destruct (isspace c) eqn:E; [exact IH|]. simpl. now rewrite E.
Qed.

Lemma lstrip_app_keep (l r : pystr) (c : pychar) :
  isspace c = false -> lstrip (l ++ c :: r) = lstrip l ++ c :: r.
Proof.
  intros Hc. induction l as [|x l IH]; simpl.
  - now rewrite Hc.
  - destruct (isspace x); [exact IH|reflexivity].
Qed.

Lemma rstrip_cons_keep (c : pychar) (s : pystr) :
  isspace c = false -> rstrip (c :: s) = c :: rstrip s.
Proof.
  intros Hc. unfold rstrip. simpl.
  rewrite lstrip_app_keep by assumption.
  now rewrite rev_app_distr.
Qed.

Lemma rstrip_idem (s : pystr) : rstrip (rstrip s) = rstrip s.
Proof.
  unfold rstrip. now rewrite rev_involutive, lstrip_idem.
Qed.

Lemma lstrip_head (s : pystr) :
  lstrip s = [] \/ exists c t, lstrip s = c :: t /\ isspace c = false.
Proof.
  induction s as [|c s IH]; simpl; [now left|].
  destruct (isspace c) eqn:E; [exact IH|]. right. now exists c, s.
Qed.

(** Stripping twice is stripping once. *)
Lemma strip_idem (s : pystr) : strip (strip s) = strip s.
Proof.
  unfold strip.
  destruct (lstrip_head s) as [E | (c & t & E & Hc)]; rewrite E.
  - reflexivity.
  - rewrite rstrip_cons_keep by assumption. simpl. rewrite Hc.
    rewrite <- rstrip_cons_keep by assumption. apply rstrip_idem.
Qed.

(** The loop of the clean-up keeps exactly the lines a filter keeps. *)
Lemma keep_loop_filter (f : pystr -> bool) (lines acc : list pystr) :
  fold_left (fun json_lines line => if f line then json_lines ++ [line] else json_lines)
            lines acc
  = acc ++ filter f lines.
Proof.
  revert acc. induction lines as [|l lines IH]; intros acc; simpl.
  - now rewrite app_nil_r.
  - rewrite IH. destruct (f l); [|reflexivity]. now rewrite <- app_assoc.
Qed.

Lemma filter_all (A : Type) (f : A -> bool) (l : list A) :
  forallb f l = true -> filter f l = l.
Proof.
  induction l as [|x l IH]; simpl; [reflexivity|].
  intros H. apply andb_prop in H as [Hx Hl]. rewrite Hx. now rewrite IH.
Qed.

(** The code's clean-up is the specification's sanitisation. *)
Lemma clean_output_sanitize (stdout : pystr) :
  clean_output stdout = sanitize_spec stdout.
Proof.
  unfold clean_output, sanitize_spec.
  destruct (contains (lit "EOF") (strip stdout)); [|reflexivity].
  now rewrite keep_loop_filter.
Qed.

(** Without a line to drop the clean-up only strips. *)
Lemma clean_output_identity (stdout : pystr) :
  no_probe_line (strip stdout) = true -> clean_output stdout = strip stdout.
Proof.
  intros Hn. rewrite clean_output_sanitize. unfold sanitize_spec.
  destruct (contains (lit "EOF") (strip stdout)); [|reflexivity].
  unfold no_probe_line in Hn.
  now rewrite (filter_all _ _ Hn), join_split, strip_idem.
Qed.

End StringFacts.

(** ** Valid JSON and the clean-up *)

Section JsonFacts.

Local Open Scope N_scope.

Lemma start_value_wf (c : pychar) (stack stack' : list container) (st' : state) :
  start_value c stack = Some (st', stack') -> wf_state st' = true.
Proof.
  unfold start_value.
  repeat match goal with
         | |- context [if ?b then _ else _] => destruct b
         end; try discriminate; intros [= <- _]; reflexivity.
Qed.

Lemma after_value_boundary (c : pychar) (stack stack' : list container) (st' : state) :
  after_value c stack = Some (st', stack') -> at_token_boundary st' = true.
Proof.
  unfold after_value.
  repeat match goal with
         | |- context [if ?b then _ else _] => destruct b
         | |- context [match ?l with _ => _ end] => destruct l
         end; try discriminate; intros [= <- _]; reflexivity.
Qed.

Lemma boundary_wf (st : state) : at_token_boundary st = true -> wf_state st = true.
Proof. destruct st; simpl; congruence. Qed.

(** The literal being read stays made of letters. *)
Lemma step_wf (st st' : state) (stack stack' : list container) (c : pychar) :
  wf_state st = true -> step st stack c = Some (st', stack') -> wf_state st' = true.
Proof.
  intros Hwf. destruct st; simpl;
    repeat match goal with
           | |- context [if ?b then _ else _] => destruct b
           end;
    try discriminate;
    try (intros [= <- _]; reflexivity);
    try (intros H; apply start_value_wf in H; exact H);
    try (intros H; apply after_value_boundary in H; now apply boundary_wf).
  - destruct more as [|[|more]]; intros [= <- _]; reflexivity.
  - destruct rest as [|x [|y rest]]; [discriminate| |];
      destruct (c =? x); try discriminate; intros [= <- _]; [reflexivity|].
    simpl in Hwf |- *. now apply andb_prop in Hwf as [_ Hwf].
Qed.

(** A newline is only read between tokens. *)
Lemma step_newline (st st' : state) (stack stack' : list container) :
  wf_state st = true ->
  step st stack LF = Some (st', stack') -> at_token_boundary st' = true.
Proof.
  intros Hwf.
  destruct st;
    try (simpl; try discriminate; intros [= <- _]; reflexivity).
  unfold step.
  destruct rest as [|x [|y rest]]; [discriminate| |];
    destruct (N.eqb_spec LF x) as [<-|_]; discriminate.
Qed.

(** Between tokens a slash is refused. *)
Lemma step_slash (st : state) (stack : list container) :
  at_token_boundary st = true -> step st stack 47 = None.
Proof.
  destruct st; simpl; try discriminate; reflexivity.
Qed.

Lemma startswith_probe_path (c : pychar) (line : pystr) :
  startswith PROBE_PATH (c :: line) = true -> c = 47.
Proof.
  change PROBE_PATH with (47 :: lit "usr/local/bin/global-health-check.sh").
  cbn [startswith]. intros H. apply andb_prop in H as [H _].
  now apply N.eqb_eq in H.
Qed.

Lemma run_lines (s : pystr) :
  forall st stack,
    wf_state st = true ->
    run st stack s = true ->
    forallb keeps (tl (split LF s)) = true /\
    (at_token_boundary st = true -> keeps (hd [] (split LF s)) = true).
Proof.
  induction s as [|c s IH]; intros st stack Hwf Hrun.
  - split; reflexivity.
  - simpl in Hrun.
    destruct (step st stack c) as [[st' stack']|] eqn:Es; [|discriminate].
    assert (Hwf' : wf_state st' = true) by exact (@step_wf st st' stack stack' c Hwf Es).
    destruct (IH st' stack' Hwf' Hrun) as [Htl Hhd].
    pose proof (split_not_nil LF s) as Hnil.
    simpl. destruct (N.eqb_spec c LF) as [->|Hne].
    + assert (Hb' : at_token_boundary st' = true)
        by exact (@step_newline st st' stack stack' Hwf Es).
      split; [|intros _; reflexivity]. simpl.
      destruct (split LF s) as [|l ls]; [contradiction|]. simpl in *.
      now rewrite Htl, Hhd.
    + destruct (split LF s) as [|l ls]; [contradiction|]. simpl in *.
      split; [exact Htl|]. intros Hb. unfold keeps.
      destruct (startswith PROBE_PATH (c :: l)) eqn:Ep; [|reflexivity].
      apply startswith_probe_path in Ep. subst c.
      rewrite step_slash in Es by assumption. discriminate.
Qed.

(** No line of a valid JSON text begins with the probe's invocation path. *)
Lemma json_valid_no_probe_line (s : pystr) :
  json_valid s = true -> no_probe_line s = true.
Proof.
  intros Hv. unfold no_probe_line.
  destruct (run_lines s ExpectValue [] eq_refl Hv) as [Htl Hhd].
  pose proof (split_not_nil LF s) as Hnil.
  destruct (split LF s) as [|l ls]; [contradiction|].
  cbn [hd tl] in Htl, Hhd.
  change (keeps l && forallb keeps ls = true). now rewrite Hhd, Htl.
Qed.

End JsonFacts.

(** ** The limits only refuse *)

Section LimitFacts.

Variables max_depth max_str_digits : nat.

Lemma run_limited_accepts (s : pystr) :
  forall st stack digits has_frac,
    run_limited max_depth max_str_digits st stack digits has_frac s = inr tt ->
    run st stack s = true.
Proof.
  induction s as [|c s IH]; intros st stack digits has_frac; cbn [run_limited run].
  - destruct (int_refused _ _ _ _ _); [discriminate|].
    now destruct (accepting st stack).
  - destruct (int_refused _ _ _ _ _); [discriminate|].
    destruct (step st stack c) as [[st' stack']|]; [|discriminate].
    destruct (opened_by stack stack').
    + destruct (max_depth <? List.length stack')%nat; [discriminate|apply IH].
    + destruct (completes_constant st c && _)%bool; [discriminate|apply IH].
Qed.

(** What the decoder accepts is a document of the grammar. *)
Lemma loads_limited_accepts (s : pystr) :
  loads_limited max_depth max_str_digits s = inr tt -> json_valid s = true.
Proof.
  unfold loads_limited, json_valid.
  destruct (startswith [65279%N] s); [discriminate|apply run_limited_accepts].
Qed.

Lemma run_limited_rejects (s : pystr) :
  forall st stack digits has_frac,
    run_limited max_depth max_str_digits st stack digits has_frac s = inl NotJSON ->
    run st stack s = false.
Proof.
  induction s as [|c s IH]; intros st stack digits has_frac; cbn [run_limited run].
  - destruct (int_refused _ _ _ _ _); [discriminate|].
    now destruct (accepting st stack).
  - destruct (int_refused _ _ _ _ _); [discriminate|].
    destruct (step st stack c) as [[st' stack']|]; [|reflexivity].
    destruct (opened_by stack stack').
    + destruct (max_depth <? List.length stack')%nat; [discriminate|apply IH].
    + destruct (completes_constant st c && _)%bool; [discriminate|apply IH].
Qed.

(** A [JSONDecodeError] is raised on text outside the grammar only. *)
Lemma loads_limited_rejects (s : pystr) :
  loads_limited max_depth max_str_digits s = inl NotJSON -> json_valid s = false.
Proof.
  unfold loads_limited, json_valid.
  destruct (startswith [65279%N] s) eqn:Eb; [|apply run_limited_rejects].
  intros _. destruct s as [|c s]; [discriminate|].
  cbn [startswith] in Eb. apply andb_prop in Eb. destruct Eb as [Ec _].
  apply N.eqb_eq in Ec. subst c. reflexivity.
Qed.

End LimitFacts.

(** ** Codecs *)

Section CodecFacts.

Local Open Scope N_scope.

Lemma find_surrogates_none (s : pystr) :
  well_decoded s = true -> forall i, find_surrogates i s = None.
Proof.
  unfold well_decoded.
  induction s as [|c s IH]; simpl; intros H i; [reflexivity|].
  apply andb_prop in H as [Hc Hs].
  apply negb_true_iff in Hc. rewrite Hc. now apply IH.
Qed.

(** Strictly decoded text always encodes, to its UTF-8 code units. *)
Lemma encode_utf8_well_decoded (s : pystr) :
  well_decoded s = true -> encode_utf8 s = inr (utf8_bytes s).
Proof.
  intros H. unfold encode_utf8. now rewrite find_surrogates_none.
Qed.

Lemma ascii_well_decoded (s : pystr) :
  forallb is_ascii s = true -> well_decoded s = true.
Proof.
  unfold well_decoded. rewrite !forallb_forall. intros H c Hc.
  specialize (H c Hc). unfold is_ascii, is_surrogate in *.
  apply N.ltb_lt in H. apply negb_true_iff, andb_false_iff.
  left. apply N.leb_gt. lia.
Qed.

Lemma well_decoded_forall (s : pystr) :
  well_decoded s = true <-> forall c, In c s -> is_surrogate c = false.
Proof.
  unfold well_decoded. rewrite forallb_forall.
  split; intros H c Hc; specialize (H c Hc);
    [now apply negb_true_iff | now apply negb_true_iff].
Qed.

Lemma in_lstrip (c : pychar) (s : pystr) : In c (lstrip s) -> In c s.
Proof.
  induction s as [|x s IH]; simpl; [tauto|].
  destruct (isspace x); simpl; tauto.
Qed.

Lemma in_strip (c : pychar) (s : pystr) : In c (strip s) -> In c s.
Proof.
  unfold strip, rstrip. intros H.
  apply in_lstrip. apply in_rev. apply in_lstrip. now apply in_rev in H.
Qed.

Lemma in_split (sep : pychar) (s line : pystr) (c : pychar) :
  In line (split sep s) -> In c line -> In c s.
Proof.
  revert line. induction s as [|x s IH]; simpl; intros line Hl Hc.
  - destruct Hl as [<-|[]]. destruct Hc.
  - destruct (x =? sep).
    + destruct Hl as [<-|Hl]; [destruct Hc|]. right. eauto.
    + destruct (split sep s) as [|l ls] eqn:E.
      * destruct Hl as [<-|[]]. destruct Hc as [->|[]]. now left.
      * destruct Hl as [<-|Hl].
        -- destruct Hc as [->|Hc]; [now left|]. right.
           apply (IH l); [now left|assumption].
        -- right. apply (IH line); [now right|assumption].
Qed.

Lemma in_join (sep : pystr) (parts : list pystr) (c : pychar) :
  In c (join sep parts) -> In c sep \/ exists p, In p parts /\ In c p.
Proof.
  induction parts as [|p ps IH]; simpl; [tauto|].
  destruct ps as [|q ps].
  - intros H. right. exists p. tauto.
  - intros H. apply in_app_or in H as [H|H].
    + right. exists p. tauto.
    + apply in_app_or in H as [H|H]; [now left|].
      destruct (IH H) as [H'|(p' & Hp' & Hc)]; [now left|].
      right. exists p'. split; [now right|assumption].
Qed.

(** The clean-up keeps strictly decoded text strictly decoded. *)
Lemma clean_output_well_decoded (stdout : pystr) :
  well_decoded stdout = true -> well_decoded (clean_output stdout) = true.
Proof.
  rewrite clean_output_sanitize, !well_decoded_forall.
  intros H c. unfold sanitize_spec.
  destruct (contains (lit "EOF") (strip stdout)).
  - intros Hc. apply in_strip, in_join in Hc.
    destruct Hc as [[<-|[]]|(p & Hp & Hc)]; [reflexivity|].
    apply filter_In in Hp as [Hp _].
    apply H. eapply in_strip, in_split; eassumption.
  - intros Hc. now apply H, in_strip.
Qed.

Lemma hexdigit_ascii (d : N) : is_ascii (hexdigit d) = true.
Proof.
  unfold is_ascii, hexdigit. apply N.ltb_lt.
  pose proof (N.mod_lt d 16 ltac:(discriminate)).
  destruct (N.ltb_spec (d mod 16) 10); lia.
Qed.

Lemma hex4_ascii (n : N) : forallb is_ascii (hex4 n) = true.
Proof.
  unfold hex4. simpl. now rewrite !hexdigit_ascii.
Qed.

Lemma escape_char_ascii (c : pychar) : forallb is_ascii (escape_char c) = true.
Proof.
  unfold escape_char.
  repeat match goal with
         | |- context [if ?b then _ else _] => destruct b eqn:?
         end;
    try reflexivity.
  - simpl. rewrite andb_true_r. unfold is_ascii.
    apply andb_prop in Heqb6 as [_ H]. apply N.leb_le in H. apply N.ltb_lt. lia.
  - change (BACKSLASH :: lit "u" ++ hex4 c) with ([92; 117] ++ hex4 c).
    now rewrite forallb_app, hex4_ascii.
  - match goal with
    | |- forallb _ (_ :: _ ++ hex4 ?a ++ _ :: _ ++ hex4 ?b) = _ =>
        change (forallb is_ascii (([92; 117] ++ hex4 a) ++ [92; 117] ++ hex4 b) = true)
    end.
    now rewrite !forallb_app, !hex4_ascii.
Qed.

Lemma dumps_str_ascii (s : pystr) : forallb is_ascii (dumps_str s) = true.
Proof.
  unfold dumps_str. simpl. rewrite forallb_app. simpl.
  rewrite andb_true_r.
  induction s as [|c s IH]; simpl; [reflexivity|].
  now rewrite forallb_app, escape_char_ascii.
Qed.

Lemma string_of_uint_ascii (d : Decimal.uint) :
  forallb is_ascii (lit (NilEmpty.string_of_uint d)) = true.
Proof.
  induction d; simpl; try reflexivity; exact IHd.
Qed.

Lemma str_of_int_ascii (z : Z) : forallb is_ascii (str_of_int z) = true.
Proof.
  unfold str_of_int, NilZero.string_of_int.
  destruct (Z.to_int z) as [d|d]; unfold NilZero.string_of_uint.
  - destruct d; try reflexivity; apply string_of_uint_ascii.
  - change (lit (String "-" ?s)) with (45 :: lit s).
    destruct d; try reflexivity; apply string_of_uint_ascii.
Qed.

Lemma json_dumps_ascii (e : error_envelope) : forallb is_ascii (json_dumps e) = true.
Proof.
  unfold json_dumps.
  rewrite !forallb_app, !dumps_str_ascii, str_of_int_ascii. reflexivity.
Qed.

(** The serialised envelope always encodes. *)
Lemma encode_json_dumps (e : error_envelope) :
  encode_utf8 (json_dumps e) = inr (utf8_bytes (json_dumps e)).
Proof.
  apply encode_utf8_well_decoded, ascii_well_decoded, json_dumps_ascii.
Qed.

End CodecFacts.

(** ** The handler, case by case *)

Section HandlerFacts.

Variable json_loads : pystr -> exc + unit.

Local Open Scope Z_scope.

Ltac run_handler :=
  unfold exec, trace_of, handle_one_request, do_GET, do_OPTIONS, try_except,
    bind, lift, subprocess_run, send_response, send_header, end_headers,
    wfile_write, send_error, emit, ret;
  simpl.

Lemma send_error_response_run (message : pystr) (w : World) (tr : trace) :
  send_error_response message w tr
  = (inr tt, tr ++ error_events message (now_ms w)).
Proof.
  unfold send_error_response, time_ms. run_handler.
  rewrite encode_json_dumps. unfold error_events.
  now rewrite <- !app_assoc.
Qed.

Lemma health_path (path : pystr) :
  path = lit "/" \/ path = lit "/health" ->
  existsb (str_eqb path) [lit "/"; lit "/health"] = true.
Proof. intros [-> | ->]; reflexivity. Qed.

Lemma other_path (path : pystr) :
  path <> lit "/" -> path <> lit "/health" ->
  existsb (str_eqb path) [lit "/"; lit "/health"] = false.
Proof.
  intros H1 H2. simpl. now rewrite !str_eqb_neq.
Qed.

(** [do_GET] on every path. *)
Lemma do_GET_exec (path : pystr) (w : World) :
  exec (do_GET json_loads path) w
  = if existsb (str_eqb path) [lit "/"; lit "/health"] then health_run json_loads w
    else if str_eqb path (lit "/ping") then
      (inr tt,
       [SendResponse 200; SendHeader (lit "Content-Type") (lit "text/plain");
        EndHeaders; WfileWrite (blit "pong")])
    else
      (inr tt,
       [SendResponse 404; SendHeader (lit "Content-Type") (lit "application/json");
        EndHeaders; WfileWrite (bdq "{'error': 'Not found'}")]).
Proof.
  unfold exec, do_GET, health_run.
  destruct (existsb (str_eqb path) [lit "/"; lit "/health"]).
  2: { destruct (str_eqb path (lit "/ping")); reflexivity. }
  unfold try_except, bind, subprocess_run, lift.
  destruct (probe w) as [result|e]; simpl.
  - destruct (returncode result =? 0).
    + destruct (json_loads (clean_output (stdout result))) as [e|[]] eqn:El; simpl.
      * destruct (is_JSONDecodeError e) eqn:Ej.
        -- now rewrite send_error_response_run.
        -- destruct (is_TimeoutExpired e); now rewrite send_error_response_run.
      * unfold send_response, send_header, end_headers, wfile_write, emit. simpl.
        unfold encode_utf8.
        destruct (find_surrogates 0 (clean_output (stdout result)))
          as [[[start c] stop]|]; simpl.
        -- now rewrite send_error_response_run.
        -- reflexivity.
    + now rewrite send_error_response_run.
  - destruct (is_TimeoutExpired e); now rewrite send_error_response_run.
Qed.

Lemma do_GET_health (path : pystr) (w : World) :
  path = lit "/" \/ path = lit "/health" ->
  exec (do_GET json_loads path) w = health_run json_loads w.
Proof.
  intros Hp. now rewrite do_GET_exec, (health_path Hp).
Qed.

Lemma do_GET_not_found (path : pystr) (w : World) :
  path <> lit "/" -> path <> lit "/health" -> path <> lit "/ping" ->
  exec (do_GET json_loads path) w
  = (inr tt,
     [SendResponse 404; SendHeader (lit "Content-Type") (lit "application/json");
      EndHeaders; WfileWrite (bdq "{'error': 'Not found'}")]).
Proof.
  intros H1 H2 H3.
  now rewrite do_GET_exec, (other_path H1 H2), (str_eqb_neq H3).
Qed.

(** No request makes the handler raise. *)
Lemma handler_returns (command path : pystr) (w : World) :
  fst (exec (handle_one_request json_loads command path) w) = inr tt.
Proof.
  unfold handle_one_request.
  destruct (str_eqb command (lit "GET")).
  - rewrite do_GET_exec.
    destruct (existsb _ _).
    + unfold health_run.
      repeat match goal with
             | |- context [match ?x with _ => _ end] => destruct x
             end; reflexivity.
    + destruct (str_eqb path (lit "/ping")); reflexivity.
  - destruct (str_eqb command (lit "OPTIONS")); reflexivity.
Qed.

Lemma handle_GET (path : pystr) :
  handle_one_request json_loads GET path = do_GET json_loads path.
Proof. reflexivity. Qed.

Lemma response_of_error (message : pystr) (ts : Z) :
  response_of (HEALTH_CHECK :: error_events message ts)
  = Some (error_response message ts).
Proof.
  unfold response_of, error_events, error_response. simpl.
  now rewrite app_nil_r.
Qed.

End HandlerFacts.

(** ** The endpoint *)

Lemma respond_health (json_loads : pystr -> exc + unit) (path : pystr) (w : World) :
  path = lit "/" \/ path = lit "/health" ->
  respond json_loads GET path w = response_of (snd (health_run json_loads w)).
Proof.
  intros Hp. unfold respond, trace_of. rewrite handle_GET.
  now rewrite (do_GET_health json_loads w Hp).
Qed.

Lemma respond_health_valid (json_loads : pystr -> exc + unit) (path : pystr)
    (w : World) (result : CompletedProcess) :
  path = lit "/" \/ path = lit "/health" ->
  probe w = Completed result ->
  returncode result = 0%Z ->
  well_decoded (stdout result) = true ->
  json_loads (clean_output (stdout result)) = inr tt ->
  respond json_loads GET path w
  = Some (mkResponse 200 JSON_TYPE (utf8_bytes (clean_output (stdout result)))).
Proof.
  intros Hp Hw Hrc Hwd Hj. rewrite (respond_health json_loads w Hp).
  unfold health_run. rewrite Hw, Hrc, Hj. simpl.
  rewrite encode_utf8_well_decoded by now apply clean_output_well_decoded.
  unfold response_of. simpl. now rewrite app_nil_r.
Qed.

(** Valid JSON on stdout is never altered by the clean-up: when the
    decoder accepts it, it is answered 200 with the stripped text, whatever
    it contains. *)
Lemma valid_json_passes_unchanged (json_loads : pystr -> exc + unit) (path : pystr)
    (w : World) (result : CompletedProcess) :
  path = lit "/" \/ path = lit "/health" ->
  probe w = Completed result ->
  returncode result = 0%Z ->
  well_decoded (stdout result) = true ->
  json_valid (strip (stdout result)) = true ->
  json_loads (strip (stdout result)) = inr tt ->
  respond json_loads GET path w
  = Some (mkResponse 200 JSON_TYPE (utf8_bytes (strip (stdout result)))).
Proof.
  intros Hp Hw Hrc Hwd Hv Hj.
  pose proof (clean_output_identity _ (json_valid_no_probe_line _ Hv)) as Hc.
  rewrite <- Hc in *.
  exact (respond_health_valid json_loads w Hp Hw Hrc Hwd Hj).
Qed.

(** The response to a GET of / or /health when the probe has exited 0 and
    [json.loads] has raised on the cleaned stdout. *)
Lemma respond_health_rejected (json_loads : pystr -> exc + unit) (path : pystr)
    (w : World) (result : CompletedProcess) (e : exc) :
  path = lit "/" \/ path = lit "/health" ->
  probe w = Completed result ->
  returncode result = 0%Z ->
  json_loads (clean_output (stdout result)) = inl e ->
  respond json_loads GET path w
  = Some (error_response
            (if is_JSONDecodeError e then lit "Invalid JSON output from health check"
             else if is_TimeoutExpired e then lit "Health check timed out"
             else lit "Health check error: " ++ exc_str e) (now_ms w)).
Proof.
  intros Hp Hw Hrc Hj. rewrite (respond_health json_loads w Hp). unfold health_run.
  rewrite Hw, Hrc, Hj. cbn [snd]. apply response_of_error.
Qed.

(** C1: a GET of / or /health whose probe exits 0 with cleaned stdout that
    parses as JSON is answered 200, application/json, with the UTF-8 bytes
    of the cleaned text itself as body; for stdout {"status":"ok"} the body
    is exactly {"status":"ok"}. *)
Theorem C1_valid_json_passthrough (json_loads : pystr -> exc + unit)
    (path : pystr) (w : World) (result : CompletedProcess) :
  path = lit "/" \/ path = lit "/health" ->
  probe w = Completed result ->
  returncode result = 0%Z ->
  well_decoded (stdout result) = true ->
  json_loads (clean_output (stdout result)) = inr tt ->
  fst (exec (handle_one_request json_loads GET path) w) = inr tt /\
  respond json_loads GET path w
  = Some (mkResponse 200 JSON_TYPE (utf8_bytes (clean_output (stdout result)))) /\
  (stdout result = dq "{'status':'ok'}" ->
   respond json_loads GET path w
   = Some (mkResponse 200 JSON_TYPE (bdq "{'status':'ok'}"))).
Proof.
  intros Hp Hw Hrc Hwd Hj. split; [apply handler_returns|].
  pose proof (respond_health_valid json_loads w Hp Hw Hrc Hwd Hj) as Hr.
  split; [exact Hr|]. intros Hs. rewrite Hr, Hs. reflexivity.
Qed.

Lemma C1_witness :
  let w := mkWorld (Completed (mkCompleted 0 (dq "{'status':'ok'}") [])) 1700000000000 in
  json_valid (dq "{'status':'ok'}") = true /\
  respond (py_json_loads expecting_value) GET (lit "/health") w
  = Some (mkResponse 200 JSON_TYPE (bdq "{'status':'ok'}")).
Proof.
  intros w. split; [reflexivity|].
  refine (proj2 (proj2 (@C1_valid_json_passthrough (py_json_loads expecting_value)
            (lit "/health") w (mkCompleted 0 (dq "{'status':'ok'}") [])
            _ _ _ _ _)) _); try reflexivity.
  right; reflexivity.
Defined.

(** C2: a GET of / or /health whose probe run times out is answered 500
    with the error envelope whose message is "Health check timed out". *)
Theorem C2_timeout (json_loads : pystr -> exc + unit) (path : pystr) (w : World)
    (e : exc) :
  path = lit "/" \/ path = lit "/health" ->
  probe w = Raised e ->
  exc_type e = TimeoutExpired ->
  fst (exec (handle_one_request json_loads GET path) w) = inr tt /\
  trace_of (handle_one_request json_loads GET path) w
  = SubprocessRun [PROBE_PATH] 10 :: error_events (lit "Health check timed out") (now_ms w) /\
  respond json_loads GET path w
  = Some (error_response (lit "Health check timed out") (now_ms w)) /\
  status (error_response (lit "Health check timed out") (now_ms w)) = 500%Z.
Proof.
  intros Hp Hw He. split; [apply handler_returns|].
  assert (Ht : trace_of (handle_one_request json_loads GET path) w
               = HEALTH_CHECK :: error_events (lit "Health check timed out") (now_ms w)).
  { unfold trace_of. rewrite handle_GET, (do_GET_health json_loads w Hp).
    unfold health_run. rewrite Hw. unfold is_TimeoutExpired. now rewrite He. }
  split; [exact Ht|]. split; [|reflexivity].
  unfold respond. rewrite Ht. apply response_of_error.
Qed.

Lemma C2_witness :
  let e := mkExc TimeoutExpired
             (lit "Command '['/usr/local/bin/global-health-check.sh']' timed out after 10 seconds") in
  respond (py_json_loads expecting_value) GET (lit "/") (mkWorld (Raised e) 1700000000000)
  = Some (mkResponse 500 JSON_TYPE
            (bdq "{'status': 'error', 'message': 'Health check timed out', 'timestamp': 1700000000000}")).
Proof.
  intros e.
  refine (proj1 (proj2 (proj2 (@C2_timeout (py_json_loads expecting_value) (lit "/")
            (mkWorld (Raised e) 1700000000000) e _ _ _)))); try reflexivity.
  left; reflexivity.
Defined.

(** C3: a GET of / or /health whose probe exits with a non-zero code is
    answered 500 with an error envelope whose message contains the captured
    stderr. *)
Theorem C3_nonzero_exit (json_loads : pystr -> exc + unit) (path : pystr)
    (w : World) (result : CompletedProcess) :
  path = lit "/" \/ path = lit "/health" ->
  probe w = Completed result ->
  returncode result <> 0%Z ->
  let message := lit "Health check script failed: " ++ stderr result in
  fst (exec (handle_one_request json_loads GET path) w) = inr tt /\
  respond json_loads GET path w = Some (error_response message (now_ms w)) /\
  status (error_response message (now_ms w)) = 500%Z /\
  contains (stderr result) message = true.
Proof.
  intros Hp Hw Hrc message. split; [apply handler_returns|].
  split; [|split; [reflexivity|apply contains_suffix]].
  rewrite (respond_health json_loads w Hp). unfold health_run. rewrite Hw.
  apply Z.eqb_neq in Hrc. rewrite Hrc. apply response_of_error.
Qed.

Lemma C3_witness :
  respond (py_json_loads expecting_value) GET (lit "/health")
    (mkWorld (Completed (mkCompleted 3 [] (lit "redis: down"))) 1700000000000)
  = Some (mkResponse 500 JSON_TYPE
            (bdq "{'status': 'error', 'message': 'Health check script failed: redis: down', 'timestamp': 1700000000000}")).
Proof.
  refine (proj1 (proj2 (@C3_nonzero_exit (py_json_loads expecting_value) (lit "/health")
            (mkWorld (Completed (mkCompleted 3 [] (lit "redis: down"))) 1700000000000)
            (mkCompleted 3 [] (lit "redis: down")) _ _ _))).
  - right; reflexivity.
  - reflexivity.
  - discriminate.
Defined.

(** C4, as the code has it: a GET of / or /health whose probe exits 0 with
    cleaned stdout on which json.loads raises is answered 500 with the error
    envelope. The message is "Invalid JSON output from health check" when
    the exception is a JSONDecodeError, the only class the inner handler
    names; an exception of another class (RecursionError, ValueError; not
    TimeoutExpired, which json.loads does not raise and the next handler
    names) reaches the outer handler, and the message is
    "Health check error: " followed by the text of the exception. *)
Theorem C4_invalid_json (json_loads : pystr -> exc + unit) (path : pystr)
    (w : World) (result : CompletedProcess) (e : exc) :
  path = lit "/" \/ path = lit "/health" ->
  probe w = Completed result ->
  returncode result = 0%Z ->
  json_loads (clean_output (stdout result)) = inl e ->
  fst (exec (handle_one_request json_loads GET path) w) = inr tt /\
  (exists message,
     respond json_loads GET path w = Some (error_response message (now_ms w)) /\
     status (error_response message (now_ms w)) = 500%Z) /\
  (exc_type e = JSONDecodeError ->
   respond json_loads GET path w
   = Some (error_response (lit "Invalid JSON output from health check") (now_ms w))) /\
  (exc_type e <> JSONDecodeError ->
   exc_type e <> TimeoutExpired ->
   respond json_loads GET path w
   = Some (error_response (lit "Health check error: " ++ exc_str e) (now_ms w))).
Proof.
  intros Hp Hw Hrc Hj.
  pose proof (respond_health_rejected json_loads w Hp Hw Hrc Hj) as Hr.
  split; [apply handler_returns|]. split; [|split].
  - eexists. split; [exact Hr|reflexivity].
  - intros He. rewrite Hr. unfold is_JSONDecodeError. now rewrite He.
  - intros Hn Ht. rewrite Hr. unfold is_JSONDecodeError, is_TimeoutExpired.
    destruct (exc_type e); try reflexivity; contradiction.
Qed.

Lemma C4_witness :
  cpython_json_loads 980 4300 expecting_value (lit "not json")
  = inl (mkExc JSONDecodeError (lit "Expecting value: line 1 column 1 (char 0)")) /\
  respond (cpython_json_loads 980 4300 expecting_value) GET (lit "/health")
    (mkWorld (Completed (mkCompleted 0 (lit "not json") [])) 1700000000000)
  = Some (mkResponse 500 JSON_TYPE
            (bdq "{'status': 'error', 'message': 'Invalid JSON output from health check', 'timestamp': 1700000000000}")).
Proof.
  split; [reflexivity|].
  refine (proj1 (proj2 (proj2
            (@C4_invalid_json (cpython_json_loads 980 4300 expecting_value) (lit "/health")
               (mkWorld (Completed (mkCompleted 0 (lit "not json") [])) 1700000000000)
               (mkCompleted 0 (lit "not json") [])
               (mkExc JSONDecodeError (expecting_value (lit "not json")))
               (or_intror eq_refl) eq_refl eq_refl eq_refl))) eq_refl).
Defined.

(** C4 as stated fails: two thousand opening brackets are no JSON document,
    yet the decoder gives up with a RecursionError before it finds that out
    (the recursion limit of the interpreter is 1000 by default, and the
    handler runs some twenty frames deep); the inner handler does not catch
    it, and the message is the outer handler's. *)
Lemma C4_counterexample :
  let out := List.repeat (ch "[") 2000 in
  let w := mkWorld (Completed (mkCompleted 0 out [])) 1700000000000 in
  clean_output out = out /\
  json_valid out = false /\
  cpython_json_loads 980 4300 expecting_value out
  = inl (mkExc OtherException
           (lit "maximum recursion depth exceeded while decoding a JSON array from a unicode string")) /\
  respond (cpython_json_loads 980 4300 expecting_value) GET (lit "/health") w
  = Some (mkResponse 500 JSON_TYPE
            (bdq "{'status': 'error', 'message': 'Health check error: maximum recursion depth exceeded while decoding a JSON array from a unicode string', 'timestamp': 1700000000000}")) /\
  respond (cpython_json_loads 980 4300 expecting_value) GET (lit "/health") w
  <> Some (error_response (lit "Invalid JSON output from health check") (now_ms w)).
Proof.
  repeat split; try (vm_compute; reflexivity). vm_compute. discriminate.
Qed.

(** C5: on a GET of / or /health whose probe exits 0 the stdout is stripped
    first; exactly when the stripped text contains "EOF", the lines that
    begin with the probe's invocation path are dropped before the rest is
    joined and stripped again; the repaired text, when it parses, is
    answered 200. *)
Theorem C5_sanitisation (json_loads : pystr -> exc + unit) (path : pystr)
    (w : World) (result : CompletedProcess) :
  path = lit "/" \/ path = lit "/health" ->
  probe w = Completed result ->
  returncode result = 0%Z ->
  let stripped := strip (stdout result) in
  let cleaned := clean_output (stdout result) in
  (contains (lit "EOF") stripped = true ->
   cleaned = strip (join [LF]
                      (filter (fun line => negb (startswith PROBE_PATH line))
                              (split LF stripped)))) /\
  (contains (lit "EOF") stripped = false -> cleaned = stripped) /\
  (well_decoded (stdout result) = true ->
   json_loads cleaned = inr tt ->
   respond json_loads GET path w
   = Some (mkResponse 200 JSON_TYPE (utf8_bytes cleaned))).
Proof.
  intros Hp Hw Hrc stripped cleaned. subst stripped cleaned.
  split; [|split].
  - intros He. rewrite clean_output_sanitize. unfold sanitize_spec. now rewrite He.
  - intros He. rewrite clean_output_sanitize. unfold sanitize_spec. now rewrite He.
  - intros Hwd Hj. exact (respond_health_valid json_loads w Hp Hw Hrc Hwd Hj).
Qed.

Lemma C5_witness :
  let out :=
    lit "/usr/local/bin/global-health-check.sh: line 41: warning: here-document at line 12 delimited by end-of-file (wanted `EOF')"
    ++ [LF] ++ dq "{'status':'ok'}" ++ [LF] in
  clean_output out = dq "{'status':'ok'}" /\
  respond (py_json_loads expecting_value) GET (lit "/health")
    (mkWorld (Completed (mkCompleted 0 out [])) 1700000000000)
  = Some (mkResponse 200 JSON_TYPE (bdq "{'status':'ok'}")).
Proof.
  intros out. split; [reflexivity|].
  refine (proj2 (proj2 (@C5_sanitisation (py_json_loads expecting_value) (lit "/health")
            (mkWorld (Completed (mkCompleted 0 out [])) 1700000000000)
            (mkCompleted 0 out []) _ _ _)) _ _); try reflexivity.
  right; reflexivity.
Defined.

(** C6, as the code has it: a GET request whose path is not /, /health or
    /ping is answered 404, application/json, with body
    {"error": "Not found"}. *)
Theorem C6_get_not_found (json_loads : pystr -> exc + unit) (path : pystr) (w : World) :
  path <> lit "/" -> path <> lit "/health" -> path <> lit "/ping" ->
  fst (exec (handle_one_request json_loads GET path) w) = inr tt /\
  respond json_loads GET path w
  = Some (mkResponse 404 JSON_TYPE (bdq "{'error': 'Not found'}")).
Proof.
  intros H1 H2 H3. split; [apply handler_returns|].
  unfold respond, trace_of. rewrite handle_GET.
  now rewrite (do_GET_not_found json_loads w H1 H2 H3).
Qed.

Lemma C6_witness :
  respond (py_json_loads expecting_value) GET (lit "/unknown-path")
    (mkWorld (Completed (mkCompleted 0 (dq "{'status':'ok'}") [])) 1700000000000)
  = Some (mkResponse 404 JSON_TYPE (bdq "{'error': 'Not found'}")).
Proof.
  refine (proj2 (@C6_get_not_found (py_json_loads expecting_value) (lit "/unknown-path")
            (mkWorld (Completed (mkCompleted 0 (dq "{'status':'ok'}") [])) 1700000000000)
            _ _ _)); discriminate.
Defined.

(** C6 as stated fails: an OPTIONS request to a path other than /, /health
    and /ping is answered 200 with an empty body by [do_OPTIONS], not 404. *)
Lemma C6_counterexample :
  let w := mkWorld (Completed (mkCompleted 0 (dq "{'status':'ok'}") [])) 1700000000000 in
  let path := lit "/unknown-path" in
  path <> lit "/" /\ path <> lit "/health" /\ path <> lit "/ping" /\
  respond (py_json_loads expecting_value) OPTIONS path w = Some (mkResponse 200 [] []) /\
  respond (py_json_loads expecting_value) OPTIONS path w
  <> Some (mkResponse 404 JSON_TYPE (bdq "{'error': 'Not found'}")).
Proof.
  repeat split; discriminate.
Qed.

(** C7: a GET of /ping is answered 200, text/plain, with body "pong",
    whatever the probe would do, and the probe is not run. *)
Theorem C7_ping (json_loads : pystr -> exc + unit) (w : World) :
  fst (exec (handle_one_request json_loads GET (lit "/ping")) w) = inr tt /\
  respond json_loads GET (lit "/ping") w
  = Some (mkResponse 200 [(lit "Content-Type", lit "text/plain")] (blit "pong")) /\
  existsb invokes_probe (trace_of (handle_one_request json_loads GET (lit "/ping")) w)
  = false.
Proof.
  repeat split; reflexivity.
Qed.

(** C8: when running the probe raises anything but a timeout, a GET of / or
    /health is answered 500 with an error envelope, and no request at all
    makes the handler raise. *)
Theorem C8_probe_failure_contained (json_loads : pystr -> exc + unit)
    (path : pystr) (w : World) (e : exc) :
  path = lit "/" \/ path = lit "/health" ->
  probe w = Raised e ->
  exc_type e <> TimeoutExpired ->
  fst (exec (handle_one_request json_loads GET path) w) = inr tt /\
  respond json_loads GET path w
  = Some (error_response (lit "Health check error: " ++ exc_str e) (now_ms w)) /\
  status (error_response (lit "Health check error: " ++ exc_str e) (now_ms w)) = 500%Z /\
  (forall command' path' w',
     fst (exec (handle_one_request json_loads command' path') w') = inr tt).
Proof.
  intros Hp Hw He. split; [apply handler_returns|].
  split; [|split; [reflexivity|intros; apply handler_returns]].
  rewrite (respond_health json_loads w Hp). unfold health_run. rewrite Hw.
  unfold is_TimeoutExpired. destruct (exc_type e); try contradiction;
    apply response_of_error.
Qed.

Lemma C8_witness :
  let e := mkExc OSError
             (lit "[Errno 2] No such file or directory: '/usr/local/bin/global-health-check.sh'") in
  respond (py_json_loads expecting_value) GET (lit "/health") (mkWorld (Raised e) 1700000000000)
  = Some (mkResponse 500 JSON_TYPE
            (bdq "{'status': 'error', 'message': 'Health check error: [Errno 2] No such file or directory: "
             ++ blit "'/usr/local/bin/global-health-check.sh'"
             ++ bdq "', 'timestamp': 1700000000000}")).
Proof.
  intros e.
  refine (proj1 (proj2 (@C8_probe_failure_contained (py_json_loads expecting_value)
            (lit "/health") (mkWorld (Raised e) 1700000000000) e _ _ _))).
  - right; reflexivity.
  - reflexivity.
  - discriminate.
Defined.

(** For a request the handler class has a method for and a probe outcome
    with strictly decoded stdout, the response either does not depend on the
    clock, or is the error envelope of one fixed message. *)
Lemma respond_clock (json_loads : pystr -> exc + unit) (command path : pystr)
    (p : ProbeOutcome) :
  command = GET \/ command = OPTIONS ->
  (forall result, p = Completed result -> well_decoded (stdout result) = true) ->
  (exists r, forall t, respond json_loads command path (mkWorld p t) = Some r) \/
  (exists message,
     forall t, respond json_loads command path (mkWorld p t)
               = Some (error_response message t)).
Proof.
  intros [-> | ->] Hwd; unfold respond, trace_of.
  - rewrite handle_GET.
    destruct (existsb (str_eqb path) [lit "/"; lit "/health"]) eqn:Eh.
    + assert (H : forall t, exec (do_GET json_loads path) (mkWorld p t)
                            = health_run json_loads (mkWorld p t))
        by (intros t; now rewrite do_GET_exec, Eh).
      unfold health_run in H. simpl in H.
      destruct p as [result|e].
      * destruct (returncode result =? 0)%Z.
        -- destruct (json_loads (clean_output (stdout result))) as [e|[]].
           ++ right. eexists. intros t. rewrite H. apply response_of_error.
           ++ rewrite encode_utf8_well_decoded in H
                by (apply clean_output_well_decoded, Hwd; reflexivity).
              left. eexists. intros t. rewrite H. reflexivity.
        -- right. eexists. intros t. rewrite H. apply response_of_error.
      * right. eexists. intros t. rewrite H. apply response_of_error.
    + left. destruct (str_eqb path (lit "/ping")) eqn:Ep;
        eexists; intros t; rewrite do_GET_exec, Eh, Ep; reflexivity.
  - left. now exists (mkResponse 200 [] []).
Qed.

(** The calls the handler makes for a given request and probe outcome
    either do not depend on the clock, or end in the calls of
    [send_error_response] for one fixed message. *)
Lemma trace_clock (json_loads : pystr -> exc + unit) (command path : pystr)
    (p : ProbeOutcome) :
  (exists tr,
     forall t, trace_of (handle_one_request json_loads command path) (mkWorld p t) = tr) \/
  (exists calls message,
     forall t, trace_of (handle_one_request json_loads command path) (mkWorld p t)
               = calls ++ error_events message t).
Proof.
  unfold trace_of, handle_one_request.
  destruct (str_eqb command (lit "GET")).
  - destruct (existsb (str_eqb path) [lit "/"; lit "/health"]) eqn:Eh.
    + assert (H : forall t, exec (do_GET json_loads path) (mkWorld p t)
                            = health_run json_loads (mkWorld p t))
        by (intros t; now rewrite do_GET_exec, Eh).
      unfold health_run in H. cbn [probe now_ms] in H.
      destruct p as [result|e].
      * destruct (returncode result =? 0)%Z.
        -- destruct (json_loads (clean_output (stdout result))) as [e|[]].
           ++ right. exists [HEALTH_CHECK]. eexists. intros t. rewrite H. reflexivity.
           ++ destruct (encode_utf8 (clean_output (stdout result))) as [e|data].
              ** right.
                 exists [HEALTH_CHECK; SendResponse 200;
                         SendHeader (lit "Content-Type") (lit "application/json");
                         EndHeaders].
                 exists (lit "Health check error: " ++ exc_str e).
                 intros t. now rewrite H.
              ** left. eexists. intros t. rewrite H. reflexivity.
        -- right. exists [HEALTH_CHECK]. eexists. intros t. rewrite H. reflexivity.
      * right. exists [HEALTH_CHECK]. eexists. intros t. rewrite H. reflexivity.
    + left. destruct (str_eqb path (lit "/ping")) eqn:Ep;
        eexists; intros t; rewrite do_GET_exec, Eh, Ep; reflexivity.
  - left. destruct (str_eqb command (lit "OPTIONS")).
    + now exists [SendResponse 200; EndHeaders].
    + now exists [SendError 501].
Qed.

(** C9, as the code has it: two identical requests against the same probe
    outcome make the handler do the same calls, but for the timestamp of an
    error envelope. When the request is one the handler class has a method
    for (GET, OPTIONS; the base class answers the others with its own 501
    page) and the probe's stdout is strictly decoded text, both get a
    response, the two status codes are identical, and so are the two bodies
    unless the response is an error envelope: then the two envelopes carry
    the same status and message and differ only in the timestamp read from
    the clock. *)
Theorem C9_repeatable_up_to_timestamp (json_loads : pystr -> exc + unit)
    (command path : pystr) (p : ProbeOutcome) (t1 t2 : Z) :
  let tr1 := trace_of (handle_one_request json_loads command path) (mkWorld p t1) in
  let tr2 := trace_of (handle_one_request json_loads command path) (mkWorld p t2) in
  (tr1 = tr2 \/
   exists calls message,
     tr1 = calls ++ error_events message t1 /\
     tr2 = calls ++ error_events message t2) /\
  (command = GET \/ command = OPTIONS ->
   (forall result, p = Completed result -> well_decoded (stdout result) = true) ->
   exists r1 r2,
     respond json_loads command path (mkWorld p t1) = Some r1 /\
     respond json_loads command path (mkWorld p t2) = Some r2 /\
     status r1 = status r2 /\
     (body r1 = body r2 \/
      exists message,
        r1 = error_response message t1 /\
        r2 = error_response message t2)) /\
  (command <> GET -> command <> OPTIONS ->
   tr1 = [SendError 501] /\ tr2 = [SendError 501]).
Proof.
  intros tr1 tr2. subst tr1 tr2. split; [|split].
  - destruct (trace_clock json_loads command path p) as [[tr H]|[calls [message H]]];
      rewrite (H t1), (H t2).
    + now left.
    + right. now exists calls, message.
  - intros Hc Hwd.
    destruct (respond_clock json_loads path Hc Hwd) as [[r H]|[message H]];
      rewrite (H t1), (H t2).
    + exists r, r. repeat split. now left.
    + exists (error_response message t1), (error_response message t2).
      repeat split. right. now exists message.
  - intros Hg Ho. unfold trace_of, handle_one_request.
    fold GET. fold OPTIONS.
    now rewrite (str_eqb_neq Hg), (str_eqb_neq Ho).
Qed.

Lemma C9_witness :
  let p := Completed (mkCompleted 1 [] (lit "probe failed")) in
  exists r1 r2,
    respond (py_json_loads expecting_value) GET (lit "/health") (mkWorld p 1700000000000)
    = Some r1 /\
    respond (py_json_loads expecting_value) GET (lit "/health") (mkWorld p 1700000000001)
    = Some r2 /\
    status r1 = status r2 /\
    (body r1 = body r2 \/
     exists message,
       r1 = error_response message 1700000000000 /\
       r2 = error_response message 1700000000001).
Proof.
  intros p.
  refine (proj1 (proj2 (@C9_repeatable_up_to_timestamp (py_json_loads expecting_value)
                          GET (lit "/health") p 1700000000000 1700000000001))
            (or_introl eq_refl) _).
  intros result [= <-]. reflexivity.
Defined.

(** C9 as stated fails: the same request against the same failing probe at
    two clock readings gets two different bodies. *)
Lemma C9_counterexample :
  let p := Completed (mkCompleted 1 [] (lit "probe failed")) in
  let r1 := respond (py_json_loads expecting_value) GET (lit "/health")
              (mkWorld p 1700000000000) in
  let r2 := respond (py_json_loads expecting_value) GET (lit "/health")
              (mkWorld p 1700000000001) in
  r1 = Some (mkResponse 500 JSON_TYPE
               (bdq "{'status': 'error', 'message': 'Health check script failed: probe failed', 'timestamp': 1700000000000}")) /\
  r2 = Some (mkResponse 500 JSON_TYPE
               (bdq "{'status': 'error', 'message': 'Health check script failed: probe failed', 'timestamp': 1700000000001}")) /\
  option_map body r1 <> option_map body r2.
Proof.
  repeat split. vm_compute. discriminate.
Qed.




(** * Further properties of the endpoint *)

Section EndpointFacts.

Variable json_loads : pystr -> exc + unit.

Lemma error_events_no_probe (message : pystr) (ts : Z) :
  filter invokes_probe (error_events message ts) = [].
Proof. reflexivity. Qed.

(** X1: the probe is run exactly once for a GET of / or /health, as the
    first thing the handler does and with the fixed command and the
    10-second timeout, and not at all for any other request. *)
Theorem X1_probe_run_once (command path : pystr) (w : World) :
  let tr := trace_of (handle_one_request json_loads command path) w in
  if str_eqb command GET && existsb (str_eqb path) [lit "/"; lit "/health"]
  then probe_runs tr = 1%nat /\ hd_error tr = Some (SubprocessRun [PROBE_PATH] 10)
  else probe_runs tr = 0%nat.
Proof.
  unfold trace_of, handle_one_request, GET. cbv zeta.
  destruct (str_eqb command (lit "GET")); cbn [andb].
  - rewrite do_GET_exec.
    destruct (existsb (str_eqb path) [lit "/"; lit "/health"]); cbn [andb].
    + unfold health_run.
      destruct (probe w) as [result|e]; [|split; reflexivity].
      destruct (returncode result =? 0)%Z; [|split; reflexivity].
      destruct (json_loads (clean_output (stdout result))) as [e|[]];
        [split; reflexivity|].
      destruct (encode_utf8 (clean_output (stdout result))); split; reflexivity.
    + destruct (str_eqb path (lit "/ping")); reflexivity.
  - destruct (str_eqb command (lit "OPTIONS")); reflexivity.
Qed.

(** X2: a 200 from / or /health is never sent for output that was not
    validated: the probe exited 0, json.loads accepted the cleaned text and
    the body is the encoding of that very text. *)
Theorem X2_ok_only_if_validated (path : pystr) (w : World) (r : Response) :
  path = lit "/" \/ path = lit "/health" ->
  respond json_loads GET path w = Some r ->
  status r = 200%Z ->
  exists result,
    probe w = Completed result /\
    returncode result = 0%Z /\
    json_loads (clean_output (stdout result)) = inr tt /\
    encode_utf8 (clean_output (stdout result)) = inr (body r) /\
    headers r = JSON_TYPE.
Proof.
  intros Hp Hr Hs. rewrite (respond_health json_loads w Hp) in Hr.
  unfold health_run in Hr.
  destruct (probe w) as [result|e].
  - destruct (Z.eqb_spec (returncode result) 0) as [Hrc|Hrc].
    + destruct (json_loads (clean_output (stdout result))) as [e|[]] eqn:Hj.
      * cbn [snd] in Hr. rewrite response_of_error in Hr.
        injection Hr as <-. discriminate Hs.
      * destruct (encode_utf8 (clean_output (stdout result))) as [e|data] eqn:He.
        -- discriminate Hr.
        -- exists result. cbn in Hr. rewrite app_nil_r in Hr.
           injection Hr as <-. repeat split; assumption || reflexivity.
    + cbn [snd] in Hr. rewrite response_of_error in Hr.
      injection Hr as <-. discriminate Hs.
  - cbn [snd] in Hr. rewrite response_of_error in Hr.
    injection Hr as <-. discriminate Hs.
Qed.

(** X3: when the probe's stdout is strictly decoded text, every GET and
    every OPTIONS request gets exactly one well-formed response, with status
    200, 404 or 500, and every 500 carries the error envelope. *)
Theorem X3_one_response (command path : pystr) (w : World) :
  command = GET \/ command = OPTIONS ->
  (forall result, probe w = Completed result -> well_decoded (stdout result) = true) ->
  exists r,
    respond json_loads command path w = Some r /\
    (status r = 200%Z \/ status r = 404%Z \/ status r = 500%Z) /\
    (status r = 500%Z -> exists message, r = error_response message (now_ms w)).
Proof.
  intros [-> | ->] Hwd.
  - unfold respond, trace_of. rewrite handle_GET, do_GET_exec.
    destruct (existsb (str_eqb path) [lit "/"; lit "/health"]).
    + unfold health_run.
      destruct (probe w) as [result|e] eqn:Hw.
      * destruct (returncode result =? 0)%Z.
        -- destruct (json_loads (clean_output (stdout result))) as [e|[]].
           ++ cbn [snd]. rewrite response_of_error. eexists. split; [reflexivity|].
              split; [now right; right|]. intros _. eexists. reflexivity.
           ++ rewrite encode_utf8_well_decoded
                by (apply clean_output_well_decoded, Hwd; reflexivity).
              eexists. split; [reflexivity|]. split; [now left|]. discriminate.
        -- cbn [snd]. rewrite response_of_error. eexists. split; [reflexivity|].
           split; [now right; right|]. intros _. eexists. reflexivity.
      * cbn [snd]. rewrite response_of_error. eexists. split; [reflexivity|].
        split; [now right; right|]. intros _. eexists. reflexivity.
    + destruct (str_eqb path (lit "/ping")); eexists;
        (split; [reflexivity|]); (split; [|discriminate]); [now left|now right; left].
  - eexists. split; [reflexivity|]. split; [now left|]. discriminate.
Qed.

End EndpointFacts.

(** ** The clean-up only removes characters *)

Section SubseqFacts.

Lemma subseq_refl (s : pystr) : subseq s s.
Proof. induction s; constructor; assumption. Qed.

Lemma subseq_nil_l (s : pystr) : subseq [] s.
Proof. induction s; constructor; assumption. Qed.

Lemma subseq_trans (a b c : pystr) : subseq a b -> subseq b c -> subseq a c.
Proof.
  intros Hab Hbc. revert a Hab.
  induction Hbc as [|x b c Hbc IH|x b c Hbc IH]; intros a Hab.
  - exact Hab.
  - inversion Hab; subst.
    + apply subseq_keep. now apply IH.
    + apply subseq_drop. now apply IH.
  - apply subseq_drop. now apply IH.
Qed.

Lemma subseq_app (a b c d : pystr) :
  subseq a b -> subseq c d -> subseq (a ++ c) (b ++ d).
Proof.
  intros Hab Hcd. induction Hab; simpl; try constructor; assumption.
Qed.

Lemma subseq_rev (a b : pystr) : subseq a b -> subseq (List.rev a) (List.rev b).
Proof.
  intros H. induction H; simpl.
  - constructor.
  - apply subseq_app; [assumption|apply subseq_refl].
  - rewrite <- (app_nil_r (List.rev a)).
    apply subseq_app; [assumption|apply subseq_nil_l].
Qed.

Lemma subseq_lstrip (s : pystr) : subseq (lstrip s) s.
Proof.
  induction s as [|c s IH]; simpl; [constructor|].
  destruct (isspace c); [now apply subseq_drop|apply subseq_refl].
Qed.

Lemma subseq_strip (s : pystr) : subseq (strip s) s.
Proof.
  unfold strip, rstrip.
  apply subseq_trans with (lstrip s); [|apply subseq_lstrip].
  rewrite <- (rev_involutive (lstrip s)) at 2.
  apply subseq_rev, subseq_lstrip.
Qed.

Lemma subseq_join_filter (sep : pystr) (f : pystr -> bool) (parts : list pystr) :
  subseq (join sep (filter f parts)) (join sep parts).
Proof.
  induction parts as [|p ps IH]; [constructor|].
  destruct ps as [|q ps].
  - simpl. destruct (f p); [apply subseq_refl|apply subseq_nil_l].
  - change (join sep (p :: q :: ps)) with (p ++ sep ++ join sep (q :: ps)).
    change (filter f (p :: q :: ps))
      with (if f p then p :: filter f (q :: ps) else filter f (q :: ps)).
    destruct (f p).
    + destruct (filter f (q :: ps)) as [|r rs] eqn:E.
      * simpl. rewrite <- (app_nil_r p) at 1.
        apply subseq_app; [apply subseq_refl|apply subseq_nil_l].
      * change (join sep (p :: r :: rs)) with (p ++ sep ++ join sep (r :: rs)).
        repeat apply subseq_app; try apply subseq_refl. exact IH.
    + change (join sep (filter f (q :: ps)))
        with ([] ++ [] ++ join sep (filter f (q :: ps))).
      repeat apply subseq_app; try apply subseq_nil_l. exact IH.
Qed.

End SubseqFacts.

(** X5: the clean-up only ever removes characters: the cleaned text is the
    stdout with some characters left out, in the same order, and it has no
    whitespace at either end. *)
Theorem X5_clean_output_only_removes (stdout : pystr) :
  subseq (clean_output stdout) stdout /\
  strip (clean_output stdout) = clean_output stdout.
Proof.
  rewrite clean_output_sanitize. unfold sanitize_spec.
  destruct (contains (lit "EOF") (strip stdout)).
  - split; [|apply strip_idem].
    eapply subseq_trans; [apply subseq_strip|].
    eapply subseq_trans; [|apply subseq_strip].
    rewrite <- (join_split LF (strip stdout)) at 2.
    apply subseq_join_filter.
  - split; [apply subseq_strip|apply strip_idem].
Qed.

(** ** The error envelope is JSON *)

Section EnvelopeFacts.

Local Open Scope N_scope.

Lemma run_steps (s : pystr) :
  forall st stack,
    run st stack s
    = match steps st stack s with
      | Some (st', stack') => accepting st' stack'
      | None => false
      end.
Proof.
  induction s as [|c s IH]; intros st stack; simpl; [reflexivity|].
  destruct (step st stack c) as [[st' stack']|]; [apply IH|reflexivity].
Qed.

Lemma steps_app (a b : pystr) :
  forall st stack,
    steps st stack (a ++ b)
    = match steps st stack a with
      | Some (st', stack') => steps st' stack' b
      | None => None
      end.
Proof.
  induction a as [|c a IH]; intros st stack; simpl; [reflexivity|].
  destruct (step st stack c) as [[st' stack']|]; [apply IH|reflexivity].
Qed.

Lemma hexdigit_is_hex (d : N) : is_hex (hexdigit d) = true.
Proof.
  unfold is_hex, is_digit, hexdigit.
  pose proof (N.mod_lt d 16 ltac:(discriminate)) as Hlt.
  generalize dependent (d mod 16). intros m Hlt.
  destruct (N.ltb_spec m 10) as [H|H].
  - assert (H1 : (48 <=? 48 + m) = true) by (apply N.leb_le; lia).
    assert (H2 : (48 + m <=? 57) = true) by (apply N.leb_le; lia).
    now rewrite H1, H2.
  - assert (H1 : (97 <=? 87 + m) = true) by (apply N.leb_le; lia).
    assert (H2 : (87 + m <=? 102) = true) by (apply N.leb_le; lia).
    rewrite H1, H2. simpl. now rewrite orb_true_r.
Qed.

Lemma steps_hex4 (key : bool) (stack : list container) (n : N) :
  steps (InHex key 4) stack (hex4 n) = Some (InString key, stack).
Proof.
  unfold hex4. do 4 (cbn [steps step]; rewrite hexdigit_is_hex). reflexivity.
Qed.

Lemma steps_unicode_escape (key : bool) (stack : list container) (n : N) :
  steps (InString key) stack (BACKSLASH :: lit "u" ++ hex4 n)
  = Some (InString key, stack).
Proof.
  change (BACKSLASH :: lit "u" ++ hex4 n) with ([92; 117] ++ hex4 n).
  rewrite steps_app. apply steps_hex4.
Qed.

(** Every replacement the encoder makes is string content for the decoder. *)
Lemma steps_escape_char (key : bool) (stack : list container) (c : pychar) :
  steps (InString key) stack (escape_char c) = Some (InString key, stack).
Proof.
  unfold escape_char.
  destruct (N.eqb_spec c 34); [reflexivity|].
  destruct (N.eqb_spec c 92); [reflexivity|].
  destruct (c =? 8); [reflexivity|].
  destruct (c =? 12); [reflexivity|].
  destruct (c =? 10); [reflexivity|].
  destruct (c =? 13); [reflexivity|].
  destruct (c =? 9); [reflexivity|].
  destruct ((32 <=? c) && (c <=? 126)) eqn:Hp.
  - apply andb_prop in Hp as [Hlo _]. apply N.leb_le in Hlo.
    cbn [steps step]. unfold DQUOTE, BACKSLASH.
    rewrite (proj2 (N.eqb_neq c 34)), (proj2 (N.eqb_neq c 92)) by assumption.
    replace (c <? 32) with false by (symmetry; apply N.ltb_ge; lia).
    reflexivity.
  - destruct (c <? 65536).
    + apply steps_unicode_escape.
    + match goal with
      | |- steps _ _ (_ :: _ ++ hex4 ?a ++ _ :: _ ++ hex4 ?b) = _ =>
          change (steps (InString key) stack
                    ((BACKSLASH :: lit "u" ++ hex4 a) ++ (BACKSLASH :: lit "u" ++ hex4 b))
                  = Some (InString key, stack))
      end.
      now rewrite steps_app, !steps_unicode_escape.
Qed.

Lemma steps_string_content (key : bool) (stack : list container) (s : pystr) :
  steps (InString key) stack (flat_map escape_char s) = Some (InString key, stack).
Proof.
  induction s as [|c s IH]; [reflexivity|].
  cbn [flat_map]. now rewrite steps_app, steps_escape_char.
Qed.

Lemma steps_dumps_str (stack : list container) (s : pystr) :
  steps ExpectValue stack (dumps_str s) = Some (AfterValue, stack).
Proof.
  unfold dumps_str.
  change (DQUOTE :: flat_map escape_char s ++ [DQUOTE])
    with ([DQUOTE] ++ flat_map escape_char s ++ [DQUOTE]).
  rewrite steps_app.
  change (steps ExpectValue stack [DQUOTE]) with (Some (InString false, stack)).
  cbv iota. now rewrite steps_app, steps_string_content.
Qed.

Lemma steps_digits (stack : list container) (d : Decimal.uint) :
  steps NumInt stack (lit (NilEmpty.string_of_uint d)) = Some (NumInt, stack).
Proof.
  induction d; simpl; try reflexivity; exact IHd.
Qed.

Lemma unorm_head (d d' : Decimal.uint) :
  Decimal.unorm d = Decimal.D0 d' -> d' = Decimal.Nil.
Proof.
  induction d; simpl; try discriminate; try (intros [= <-]; reflexivity).
  exact IHd.
Qed.

Lemma to_uint_head (p : positive) (d : Decimal.uint) :
  Pos.to_uint p <> Decimal.D0 d.
Proof.
  intros E.
  pose proof (DecimalPos.Unsigned.to_of (Pos.to_uint p)) as H.
  rewrite DecimalPos.Unsigned.of_to in H. simpl in H.
  rewrite E in H. symmetry in H. apply unorm_head in H. subst d.
  exact (DecimalPos.Unsigned.to_uint_nonzero p E).
Qed.

Lemma steps_pos (st : state) (stack : list container) (p : positive) :
  st = ExpectValue \/ st = NumMinus ->
  steps st stack (lit (NilEmpty.string_of_uint (Pos.to_uint p))) = Some (NumInt, stack).
Proof.
  intros Hst.
  pose proof (@to_uint_head p) as Hhd.
  pose proof (DecimalPos.Unsigned.to_uint_nonnil p) as Hnil.
  destruct (Pos.to_uint p) as [|d|d|d|d|d|d|d|d|d|d];
    [contradiction|exfalso; eapply Hhd; reflexivity|..];
    destruct Hst as [-> | ->]; simpl; apply steps_digits.
Qed.

(** An [int] is written as a JSON number. *)
Lemma steps_str_of_int (stack : list container) (z : Z) :
  exists st,
    steps ExpectValue stack (str_of_int z) = Some (st, stack) /\
    (st = NumZero \/ st = NumInt).
Proof.
  unfold str_of_int. destruct z as [|p|p]; simpl Z.to_int.
  - exists NumZero. split; [reflexivity|now left].
  - exists NumInt. split; [|now right].
    unfold NilZero.string_of_int, NilZero.string_of_uint.
    pose proof (DecimalPos.Unsigned.to_uint_nonnil p) as Hnil.
    destruct (Pos.to_uint p) eqn:E; try contradiction;
      rewrite <- E; apply steps_pos; now left.
  - exists NumInt. split; [|now right].
    unfold NilZero.string_of_int, NilZero.string_of_uint.
    pose proof (DecimalPos.Unsigned.to_uint_nonnil p) as Hnil.
    destruct (Pos.to_uint p) eqn:E; try contradiction;
      rewrite <- E;
      change (lit (String "-" ?s)) with ([45] ++ lit s);
      rewrite steps_app; cbn [steps step]; cbn; apply steps_pos; now right.
Qed.

End EnvelopeFacts.

(** X4: whatever the message holds (quotes, backslashes, control characters,
    characters outside ASCII) and whatever the clock reads, the body of the
    error envelope is pure ASCII, one byte per character, and a JSON document
    the decoder accepts. *)
Theorem X4_error_body_is_json (message : pystr) (ts : Z) :
  let text := json_dumps (mkEnvelope (lit "error") message ts) in
  json_valid text = true /\
  forallb is_ascii text = true /\
  body (error_response message ts) = List.map byte_of_N text.
Proof.
  intros text. subst text. split; [|split].
  - unfold json_valid, json_dumps. cbn [env_status env_message env_timestamp].
    rewrite run_steps, steps_app.
    change (steps ExpectValue [] (dq "{'status': ")) with (Some (ExpectValue, [InObject])).
    cbv beta iota. rewrite steps_app, steps_dumps_str. cbv beta iota.
    rewrite steps_app.
    change (steps AfterValue [InObject] (dq ", 'message': "))
      with (Some (ExpectValue, [InObject])).
    cbv beta iota. rewrite steps_app, steps_dumps_str. cbv beta iota.
    rewrite steps_app.
    change (steps AfterValue [InObject] (dq ", 'timestamp': "))
      with (Some (ExpectValue, [InObject])).
    cbv beta iota. rewrite steps_app.
    destruct (steps_str_of_int [InObject] ts) as (st & -> & [-> | ->]); reflexivity.
  - apply json_dumps_ascii.
  - unfold error_response, utf8_bytes. cbn [body].
    pose proof (json_dumps_ascii (mkEnvelope (lit "error") message ts)) as Ha.
    induction (json_dumps (mkEnvelope (lit "error") message ts)) as [|c s IH];
      [reflexivity|].
    cbn [forallb] in Ha. apply andb_prop in Ha as [Hc Hs].
    cbn [flat_map List.map]. rewrite (IH Hs).
    unfold utf8_char. unfold is_ascii in Hc. now rewrite Hc.
Qed.

(** * int and its text *)

Section IntFacts.

Variable todecimal : pychar -> option N.
Variable max_str_digits : nat.

Local Open Scope N_scope.

Lemma scan_digits_numeral (d : Decimal.uint) :
  scan_digits false (lit (NilEmpty.string_of_uint d)) = Some (d, []).
Proof.
  induction d; [reflexivity|..];
    cbn [NilEmpty.string_of_uint]; unfold lit in *;
    cbn [list_ascii_of_string List.map scan_digits];
    match goal with
    | |- context [N_of_ascii ?a] =>
        let v := eval vm_compute in (N_of_ascii a) in
        change (N_of_ascii a) with v
    end;
    cbn [N.leb N.compare andb Pos.compare Pos.compare_cont];
    rewrite IHd; reflexivity.
Qed.

Lemma numeral_length (d : Decimal.uint) :
  List.length (lit (NilEmpty.string_of_uint d)) = Decimal.nb_digits d.
Proof.
  induction d; simpl; try reflexivity; now rewrite <- IHd.
Qed.

(** The text of an [int]: digits after an optional minus sign. *)
Lemma str_of_int_chars (z : Z) :
  forallb (fun c => (48 <=? c) && (c <=? 57) || (c =? 45)) (str_of_int z) = true.
Proof.
  assert (Hu : forall d, forallb (fun c => (48 <=? c) && (c <=? 57) || (c =? 45))
                           (lit (NilEmpty.string_of_uint d)) = true)
    by (induction d; simpl; try reflexivity; exact IHd).
  unfold str_of_int, NilZero.string_of_int.
  destruct (Z.to_int z) as [d|d]; unfold NilZero.string_of_uint.
  - destruct d; try reflexivity; apply Hu.
  - change (lit (String "-" ?s)) with (45 :: lit s).
    destruct d; try reflexivity; apply Hu.
Qed.

Lemma numeral_head (d : Decimal.uint) :
  d <> Decimal.Nil ->
  exists c rest,
    lit (NilEmpty.string_of_uint d) = c :: rest /\
    (48 <=? c) && (c <=? 57) = true.
Proof.
  intros Hnil. destruct d; try contradiction; eexists; eexists; split; reflexivity.
Qed.

Lemma long_from_numeral (negative : bool) (d : Decimal.uint) :
  d <> Decimal.Nil ->
  over_limit max_str_digits (Decimal.nb_digits d) = false ->
  long_from_string max_str_digits
    ((if negative then [45] else []) ++ lit (NilEmpty.string_of_uint d))
  = Some (Z.of_int (if negative then Decimal.Neg d else Decimal.Pos d)).
Proof.
  intros Hnil Hlim.
  pose proof (scan_digits_numeral d) as Hscan.
  destruct (numeral_head Hnil) as (c & rest & E & Hc).
  rewrite E in *.
  apply andb_prop in Hc as [H1 H2]. apply N.leb_le in H1, H2.
  assert (Hsp : c_isspace c = false).
  { unfold c_isspace. apply orb_false_iff. split; [apply N.eqb_neq; lia|].
    apply andb_false_iff. right. apply N.leb_gt. lia. }
  assert (Hsign : read_sign (c :: rest) = (false, c :: rest)).
  { unfold read_sign.
    now rewrite (proj2 (N.eqb_neq c 43)), (proj2 (N.eqb_neq c 45)) by lia. }
  assert (Hus : startswith [95] (c :: rest) = false).
  { cbn [startswith]. apply andb_false_iff. left. apply N.eqb_neq. lia. }
  unfold long_from_string.
  destruct negative; cbn [app skip_blanks].
  - change (c_isspace 45) with false. cbv iota.
    change (read_sign (45 :: c :: rest)) with (true, c :: rest).
    cbv beta iota zeta.
    rewrite Hus, Hscan, Hlim. destruct d; try contradiction; reflexivity.
  - rewrite Hsp, Hsign. cbv beta iota zeta.
    rewrite Hus, Hscan, Hlim. destruct d; try contradiction; reflexivity.
Qed.

Lemma to_ascii_decimal_ascii (s : pystr) :
  forallb is_ascii s = true -> to_ascii_decimal todecimal s = s.
Proof.
  intros H. unfold to_ascii_decimal.
  match goal with
  | |- (if ?b then _ else _) = _ => replace b with true by (symmetry; exact H)
  end.
  reflexivity.
Qed.

Lemma py_int_str_of_int (n : Z) :
  py_str max_str_digits n = Some (str_of_int n) ->
  py_int todecimal max_str_digits (str_of_int n) = Some n.
Proof.
  unfold py_str, py_int. intros Hs.
  rewrite to_ascii_decimal_ascii by apply str_of_int_ascii.
  destruct (over_limit max_str_digits _) eqn:Hlim in Hs; [discriminate|].
  rewrite <- (DecimalZ.of_to n) at 2.
  unfold str_of_int, NilZero.string_of_int in *.
  destruct n as [|p|p]; cbn [Z.to_int] in *.
  - reflexivity.
  - pose proof (DecimalPos.Unsigned.to_uint_nonnil p) as Hnil.
    unfold NilZero.string_of_uint in *.
    replace (match Pos.to_uint p with
             | Decimal.Nil => "0"%string
             | _ => NilEmpty.string_of_uint (Pos.to_uint p)
             end) with (NilEmpty.string_of_uint (Pos.to_uint p)) in *
      by (destruct (Pos.to_uint p); try reflexivity; contradiction).
    apply (long_from_numeral false Hnil).
    rewrite <- numeral_length. cbn [Z.ltb Z.compare] in Hlim.
    now rewrite Nat.sub_0_r in Hlim.
  - pose proof (DecimalPos.Unsigned.to_uint_nonnil p) as Hnil.
    unfold NilZero.string_of_uint in *.
    replace (match Pos.to_uint p with
             | Decimal.Nil => "0"%string
             | _ => NilEmpty.string_of_uint (Pos.to_uint p)
             end) with (NilEmpty.string_of_uint (Pos.to_uint p)) in *
      by (destruct (Pos.to_uint p); try reflexivity; contradiction).
    change (lit (String "-" ?s)) with ([45] ++ lit s) in *.
    apply (long_from_numeral true Hnil).
    rewrite <- numeral_length. cbn [Z.ltb Z.compare app List.length Nat.sub] in Hlim.
    now rewrite Nat.sub_0_r in Hlim.
Qed.

Lemma py_str_text (n : Z) (text : pystr) :
  py_str max_str_digits n = Some text -> text = str_of_int n.
Proof.
  unfold py_str. destruct (over_limit _ _); [discriminate|]. now intros [= <-].
Qed.

End IntFacts.


(** * shift_dates.py *)

Section ShiftDatesFacts.

Import ShiftDates.

Variable todecimal : pychar -> option N.
Variable max_str_digits : nat.
Variable environ_accepts : pystr -> bool.

#[local] Abbreviation shift_date := (shift_date todecimal max_str_digits environ_accepts).
#[local] Abbreviation shift_dates := (shift_dates todecimal max_str_digits environ_accepts).

Lemma str_eqb_refl (a : pystr) : str_eqb a a = true.
Proof. now apply str_eqb_eq. Qed.

Lemma env_get_set_same (name value : pystr) (env : environ) :
  env_get name (env_set name value env) = Some value.
Proof.
  induction env as [|[k v] env IH]; simpl.
  - now rewrite str_eqb_refl.
  - destruct (str_eqb name k) eqn:E; simpl; rewrite E; [reflexivity|exact IH].
Qed.

Lemma env_get_set_other (name other value : pystr) (env : environ) :
  other <> name ->
  env_get other (env_set name value env) = env_get other env.
Proof.
  intros Hne. induction env as [|[k v] env IH]; simpl.
  - now rewrite (str_eqb_neq Hne).
  - destruct (str_eqb name k) eqn:E; simpl; [|now rewrite IH].
    apply str_eqb_eq in E. subst k. now rewrite (str_eqb_neq Hne).
Qed.

Lemma env_set_names (name value old : pystr) (env : environ) :
  env_get name env = Some old ->
  List.map fst (env_set name value env) = List.map fst env.
Proof.
  induction env as [|[k v] env IH]; simpl; [discriminate|].
  destruct (str_eqb name k); simpl; [reflexivity|].
  intros H. now rewrite IH.
Qed.

Lemma contains_at (s : pystr) :
  contains [AT] s = existsb (N.eqb AT) s.
Proof.
  induction s as [|c s IH]; [reflexivity|].
  cbn [contains startswith existsb]. now rewrite IH, andb_true_r.
Qed.

(** A text with an at sign in it splits in two at the first one. *)
Lemma split_once_at (s : pystr) :
  existsb (N.eqb AT) s = true ->
  exists pre post,
    split_once AT s = [pre; post] /\
    s = pre ++ AT :: post /\
    existsb (N.eqb AT) pre = false.
Proof.
  induction s as [|c s IH]; [discriminate|].
  cbn [existsb split_once]. rewrite (N.eqb_sym c AT).
  destruct (N.eqb_spec AT c) as [<-|Hne].
  - intros _. exists [], s. repeat split.
  - cbn [orb]. intros H. destruct (IH H) as (pre & post & Hs & -> & Hpre).
    exists (c :: pre), post. rewrite Hs. repeat split.
    cbn [existsb]. now rewrite (proj2 (N.eqb_neq AT c) Hne), Hpre.
Qed.

Lemma split_once_app (pre post : pystr) :
  existsb (N.eqb AT) pre = false ->
  split_once AT (pre ++ AT :: post) = [pre; post].
Proof.
  induction pre as [|c pre IH]; [reflexivity|].
  cbn [existsb app split_once]. intros H. apply orb_false_iff in H as [Hc Hpre].
  rewrite (N.eqb_sym c AT), Hc. now rewrite (IH Hpre).
Qed.

(** One date block never raises, keeps the names of the variables and
    touches no variable but its own. *)
Lemma shift_date_frame (name : pystr) (env : environ) :
  exists env',
    shift_date name env = Some env' /\
    List.map fst env' = List.map fst env /\
    (forall other, other <> name -> env_get other env' = env_get other env).
Proof.
  unfold ShiftDates.shift_date.
  destruct (env_get name env) as [date|] eqn:Hget; [|now exists env].
  rewrite contains_at.
  destruct (existsb (N.eqb AT) date) eqn:Hat; [|now exists env].
  destruct (split_once_at date Hat) as (pre & post & -> & _ & _).
  destruct (py_int _ _ _) as [n|]; [|now exists env].
  destruct (py_str _ _) as [text|]; [|now exists env].
  destruct (environ_accepts _); [|now exists env].
  eexists. split; [reflexivity|]. split.
  - exact (env_set_names _ _ _ Hget).
  - intros other Hne. now apply env_get_set_other.
Qed.

Lemma shift_dates_run (env : environ) :
  not_skipped env ->
  exists env1 env2,
    shift_date GIT_AUTHOR_DATE env = Some env1 /\
    shift_date GIT_COMMITTER_DATE env1 = Some env2 /\
    shift_dates env = Finished env2.
Proof.
  intros Hns.
  destruct (shift_date_frame GIT_AUTHOR_DATE env) as (env1 & H1 & _).
  destruct (shift_date_frame GIT_COMMITTER_DATE env1) as (env2 & H2 & _).
  exists env1, env2. repeat split; try assumption.
  unfold ShiftDates.shift_dates.
  fold shift_date. rewrite H1, H2.
  destruct (env_get GIT_COMMIT_MESSAGE env) as [m|] eqn:Hm.
  - now rewrite (Hns m Hm).
  - reflexivity.
Qed.

(** What one date block does to its own variable when the text before the
    first at sign is an integer. *)
Lemma shift_date_value (name : pystr) (env : environ)
    (pre zone : pystr) (n : Z) (text : pystr) :
  env_get name env = Some (pre ++ AT :: zone) ->
  existsb (N.eqb AT) pre = false ->
  py_int todecimal max_str_digits (strip pre) = Some n ->
  py_str max_str_digits (n + SHIFT) = Some text ->
  environ_accepts (text ++ lit " @" ++ zone) = true ->
  shift_date name env
  = Some (env_set name (text ++ lit " @" ++ zone) env).
Proof.
  intros Hget Hpre Hint Hstr Hacc. unfold ShiftDates.shift_date.
  rewrite Hget, contains_at, existsb_app. cbn [existsb].
  rewrite N.eqb_refl, orb_true_r. cbv iota.
  rewrite (@split_once_app pre zone Hpre). cbv beta iota zeta.
  now rewrite Hint, Hstr, Hacc.
Qed.

Lemma date_names_differ :
  GIT_AUTHOR_DATE <> GIT_COMMITTER_DATE /\
  GIT_COMMIT_MESSAGE <> GIT_AUTHOR_DATE /\
  GIT_COMMIT_MESSAGE <> GIT_COMMITTER_DATE.
Proof. repeat split; discriminate. Qed.

(** The value of a date variable after the block of that variable is its
    value after the whole script. *)
Lemma shift_dates_own (name : pystr) (env : environ) :
  name = GIT_AUTHOR_DATE \/ name = GIT_COMMITTER_DATE ->
  not_skipped env ->
  exists before after,
    shift_date name before = Some after /\
    env_get name before = env_get name env /\
    env_get name (final_env (shift_dates env)) = env_get name after.
Proof.
  intros Hname Hns.
  destruct (@shift_dates_run env Hns) as (env1 & env2 & H1 & H2 & ->).
  destruct (shift_date_frame GIT_AUTHOR_DATE env) as (e1 & E1 & _ & F1).
  destruct (shift_date_frame GIT_COMMITTER_DATE env1) as (e2 & E2 & _ & F2).
  rewrite H1 in E1. injection E1 as <-. rewrite H2 in E2. injection E2 as <-.
  destruct date_names_differ as (Hac & _ & _).
  destruct Hname as [-> | ->].
  - exists env, env1. repeat split; [assumption|]. cbn [final_env].
    now apply F2.
  - exists env1, env2. repeat split; [assumption|].
    apply F1. now apply not_eq_sym.
Qed.

Lemma shift_dates_frame (env : environ) :
  (forall e, shift_dates env <> Uncaught e) /\
  List.map fst (final_env (shift_dates env)) = List.map fst env /\
  (forall name,
     name <> GIT_AUTHOR_DATE -> name <> GIT_COMMITTER_DATE ->
     env_get name (final_env (shift_dates env)) = env_get name env).
Proof.
  unfold ShiftDates.shift_dates. fold shift_date.
  destruct (contains SKIP_MESSAGE _); [repeat split; discriminate|].
  destruct (shift_date_frame GIT_AUTHOR_DATE env) as (env1 & -> & N1 & F1).
  destruct (shift_date_frame GIT_COMMITTER_DATE env1) as (env2 & -> & N2 & F2).
  cbn [final_env]. split; [discriminate|]. split; [congruence|].
  intros name Ha Hc. now rewrite F2, F1.
Qed.

Lemma shift_dates_value (name : pystr) (env : environ)
    (pre zone : pystr) (n : Z) (text : pystr) :
  name = GIT_AUTHOR_DATE \/ name = GIT_COMMITTER_DATE ->
  not_skipped env ->
  env_get name env = Some (pre ++ AT :: zone) ->
  existsb (N.eqb AT) pre = false ->
  py_int todecimal max_str_digits (strip pre) = Some n ->
  py_str max_str_digits (n + SHIFT) = Some text ->
  environ_accepts (text ++ lit " @" ++ zone) = true ->
  env_get name (final_env (shift_dates env)) = Some (text ++ lit " @" ++ zone).
Proof.
  intros Hname Hns Hget Hpre Hint Hstr Hacc.
  destruct (@shift_dates_own name env Hname Hns) as (before & after & Hrun & Hsame & ->).
  rewrite <- Hsame in Hget.
  rewrite (@shift_date_value name before pre zone n text Hget Hpre Hint Hstr Hacc) in Hrun.
  injection Hrun as <-. apply env_get_set_same.
Qed.

Lemma blank_prefix (pre : pystr) :
  forallb isspace pre = true ->
  strip pre = [] /\ existsb (N.eqb AT) pre = false.
Proof.
  intros H.
  assert (Hl : lstrip pre = []).
  { induction pre as [|c pre IH]; [reflexivity|].
    cbn [forallb] in H. apply andb_prop in H as [Hc Hp].
    cbn [lstrip]. rewrite Hc. now apply IH. }
  split; [unfold strip; now rewrite Hl|].
  induction pre as [|c pre IH]; [reflexivity|].
  cbn [forallb] in H. apply andb_prop in H as [Hc Hp].
  cbn [existsb]. rewrite IH; [|assumption|].
  - rewrite orb_false_r. apply N.eqb_neq. intros <-. discriminate Hc.
  - cbn [lstrip] in Hl. now rewrite Hc in Hl.
Qed.

Lemma shift_dates_blank (name : pystr) (env : environ) (pre rest : pystr) :
  name = GIT_AUTHOR_DATE \/ name = GIT_COMMITTER_DATE ->
  env_get name env = Some (pre ++ AT :: rest) ->
  forallb isspace pre = true ->
  env_get name (final_env (shift_dates env)) = Some (pre ++ AT :: rest).
Proof.
  intros Hname Hget Hblank.
  destruct (blank_prefix pre Hblank) as [Hstrip Hpre].
  assert (Hcases : not_skipped env \/ shift_dates env = SysExit 0 env).
  { unfold ShiftDates.shift_dates, not_skipped.
    destruct (env_get GIT_COMMIT_MESSAGE env) as [m|].
    - destruct (contains SKIP_MESSAGE m) eqn:Hm; [now right|].
      left. intros m' [= <-]. exact Hm.
    - left. discriminate. }
  destruct Hcases as [Hns | ->]; [|exact Hget].
  destruct (@shift_dates_own name env Hname Hns) as (before & after & Hrun & Hsame & ->).
  rewrite <- Hsame in Hget. unfold ShiftDates.shift_date in Hrun.
  rewrite Hget, contains_at, existsb_app in Hrun. cbn [existsb] in Hrun.
  rewrite N.eqb_refl, orb_true_r in Hrun. cbv iota in Hrun.
  rewrite (@split_once_app pre rest Hpre) in Hrun. cbv beta iota zeta in Hrun.
  rewrite Hstrip in Hrun.
  change (py_int todecimal max_str_digits []) with (@None Z) in Hrun.
  injection Hrun as <-. exact Hget.
Qed.

(** The text of an [int] followed by a blank: no at sign, and stripping
    gives the text back. *)
Lemma int_text_blank (n : Z) :
  existsb (N.eqb AT) (str_of_int n ++ lit " ") = false /\
  strip (str_of_int n ++ lit " ") = str_of_int n.
Proof.
  pose proof (str_of_int_chars n) as Hc.
  assert (Hns : forallb (fun c => negb (isspace c)) (str_of_int n) = true /\
                existsb (N.eqb AT) (str_of_int n) = false).
  { induction (str_of_int n) as [|c s IH]; [now split|].
    cbn [forallb existsb] in *. apply andb_prop in Hc as [Hc Hs].
    destruct (IH Hs) as [-> ->].
    assert (Hd : (48 <= c <= 57)%N \/ c = 45%N).
    { apply orb_prop in Hc as [Hc|Hc].
      - apply andb_prop in Hc as [H1 H2]. apply N.leb_le in H1, H2. now left.
      - apply N.eqb_eq in Hc. now right. }
    split.
    - rewrite andb_true_r. apply negb_true_iff. unfold isspace.
      destruct Hd as [[H1 H2]| ->]; [|reflexivity].
      repeat (apply orb_false_iff; split);
        try (apply N.eqb_neq; lia);
        apply andb_false_iff; first [left; apply N.leb_gt; lia | right; apply N.leb_gt; lia].
    - rewrite orb_false_r. apply N.eqb_neq. unfold AT.
      destruct Hd as [[H1 H2]| ->]; [lia|discriminate]. }
  destruct Hns as [Hns Hat]. split.
  - rewrite existsb_app. apply orb_false_iff. split; [exact Hat|reflexivity].
  - assert (Hl : forall s, forallb (fun c => negb (isspace c)) s = true -> lstrip s = s).
    { intros [|c s] H; [reflexivity|]. cbn [forallb] in H.
      apply andb_prop in H as [H _]. apply negb_true_iff in H.
      cbn [lstrip]. now rewrite H. }
    unfold strip, rstrip.
    destruct (str_of_int n) as [|c s] eqn:E; [reflexivity|].
    assert (Hhead : isspace c = false).
    { cbn [forallb] in Hns. apply andb_prop in Hns as [H _].
      now apply negb_true_iff in H. }
    change (lstrip ((c :: s) ++ lit " ")) with (lstrip (c :: (s ++ lit " "))).
    cbn [lstrip]. rewrite Hhead.
    change (c :: s ++ lit " ") with ((c :: s) ++ lit " ").
    rewrite rev_app_distr. change (List.rev (lit " ")) with [32%N].
    change ([32%N] ++ List.rev (c :: s)) with (32%N :: List.rev (c :: s)).
    cbn [lstrip]. change (isspace 32%N) with true. cbv iota.
    rewrite Hl, rev_involutive; [reflexivity|].
    rewrite forallb_forall in *. intros x Hx. apply Hns. now apply in_rev.
Qed.

(** Running the script on its own result shifts once more. *)
Lemma shift_dates_twice (name : pystr) (env : environ)
    (pre zone : pystr) (n : Z) (text text' : pystr) :
  name = GIT_AUTHOR_DATE \/ name = GIT_COMMITTER_DATE ->
  not_skipped env ->
  env_get name env = Some (pre ++ AT :: zone) ->
  existsb (N.eqb AT) pre = false ->
  py_int todecimal max_str_digits (strip pre) = Some n ->
  py_str max_str_digits (n + SHIFT) = Some text ->
  py_str max_str_digits (n + SHIFT + SHIFT) = Some text' ->
  environ_accepts (text ++ lit " @" ++ zone) = true ->
  environ_accepts (text' ++ lit " @" ++ zone) = true ->
  env_get name (final_env (shift_dates (final_env (shift_dates env))))
  = Some (text' ++ lit " @" ++ zone).
Proof.
  intros Hname Hns Hget Hpre Hint Hstr Hstr' Hacc Hacc'.
  pose proof (@shift_dates_value name env pre zone n text Hname Hns Hget Hpre Hint Hstr Hacc) as Hfirst.
  destruct (shift_dates_frame env) as (_ & _ & Hframe).
  destruct date_names_differ as (_ & Hma & Hmc).
  assert (Ht : text = str_of_int (n + SHIFT)).
  { unfold py_str in Hstr. destruct (over_limit _ _); [discriminate|]. now injection Hstr. }
  destruct (int_text_blank (n + SHIFT)) as [Hat Hstrip]. rewrite <- Ht in Hat, Hstrip.
  apply (@shift_dates_value name _ (text ++ lit " ") zone (n + SHIFT) text');
    try assumption.
  - intros m Hm. rewrite (Hframe _ Hma Hmc) in Hm. now apply Hns.
  - rewrite Hfirst. now rewrite <- app_assoc.
  - rewrite Hstrip, Ht. apply py_int_str_of_int. now rewrite <- Ht.
Qed.

End ShiftDatesFacts.

(** * modify_dates.py *)

Section ModifyDatesFacts.

Import ModifyDates.

Variable todecimal : pychar -> option N.
Variable max_str_digits : nat.
Variable add_120_days : Z -> option Z.

#[local] Abbreviation shifted_dates :=
  (shifted_dates todecimal max_str_digits add_120_days).
#[local] Abbreviation modify_commit_date :=
  (modify_commit_date todecimal max_str_digits add_120_days).

Lemma split_line_no_sep (sep : pychar) (s line : pystr) :
  In line (split sep s) -> existsb (N.eqb sep) line = false.
Proof.
  revert line. induction s as [|c s IH]; cbn [split]; intros line Hin.
  - destruct Hin as [<-|[]]. reflexivity.
  - destruct (N.eqb_spec c sep) as [->|Hne].
    + destruct Hin as [<-|Hin]; [reflexivity|now apply IH].
    + pose proof (split_not_nil sep s) as Hnil.
      destruct (split sep s) as [|l ls]; [contradiction|].
      destruct Hin as [<-|Hin].
      * cbn [existsb]. rewrite (IH l (or_introl eq_refl)), orb_false_r.
        apply N.eqb_neq. congruence.
      * apply IH. now right.
Qed.

Lemma split_single (sep : pychar) (s : pystr) :
  existsb (N.eqb sep) s = false -> split sep s = [s].
Proof.
  induction s as [|c s IH]; [reflexivity|].
  cbn [existsb split]. intros H. apply orb_false_iff in H as [Hc Hs].
  rewrite (N.eqb_sym c sep), Hc, (IH Hs). reflexivity.
Qed.

Lemma split_pair (sep : pychar) (a b : pystr) :
  existsb (N.eqb sep) a = false ->
  existsb (N.eqb sep) b = false ->
  split sep (a ++ sep :: b) = [a; b].
Proof.
  intros Ha Hb. induction a as [|c a IH].
  - cbn [app split]. now rewrite N.eqb_refl, (@split_single sep b Hb).
  - cbn [existsb] in Ha. apply orb_false_iff in Ha as [Hc Ha].
    cbn [app split]. rewrite (N.eqb_sym c sep), Hc, (IH Ha). reflexivity.
Qed.

Lemma plain_no_newline (s : pystr) : plain s = true -> existsb (N.eqb LF) s = false.
Proof.
  unfold plain. induction s as [|c s IH]; [reflexivity|].
  cbn [forallb existsb]. intros H. apply andb_prop in H as [Hc Hs].
  rewrite (IH Hs), orb_false_r. apply N.eqb_neq. intros <-. discriminate Hc.
Qed.

(** The fields [split()] gives are non-empty and free of whitespace. *)
Lemma split_ws_aux_fields (s : pystr) :
  plain (fst (split_ws_aux s)) = true /\
  (forall field, In field (snd (split_ws_aux s)) -> field <> [] /\ plain field = true).
Proof.
  induction s as [|c s [IHw IHf]]; [split; [reflexivity|intros ? []]|].
  cbn [split_ws_aux]. destruct (split_ws_aux s) as [word words]. cbn [fst snd] in *.
  destruct (isspace c) eqn:Hc; cbn [fst snd].
  - split; [reflexivity|]. destruct word as [|x word]; [exact IHf|].
    intros field [<-|Hin]; [split; [discriminate|exact IHw]|now apply IHf].
  - split; [|exact IHf]. unfold plain in *. cbn [forallb]. now rewrite Hc, IHw.
Qed.

Lemma split_ws_fields (s field : pystr) :
  In field (split_ws s) -> field <> [] /\ plain field = true.
Proof.
  unfold split_ws. pose proof (split_ws_aux_fields s) as [Hw Hf].
  destruct (split_ws_aux s) as [word words]. cbn [fst snd] in *.
  destruct word as [|x word]; [apply Hf|].
  intros [<-|Hin]; [split; [discriminate|exact Hw]|now apply Hf].
Qed.

Lemma split_ws_aux_word (word s : pystr) :
  plain word = true ->
  split_ws_aux (word ++ s)
  = (word ++ fst (split_ws_aux s), snd (split_ws_aux s)).
Proof.
  unfold plain. induction word as [|c word IH]; intros H.
  - cbn [app]. now destruct (split_ws_aux s).
  - cbn [forallb] in H. apply andb_prop in H as [Hc Hw].
    apply negb_true_iff in Hc.
    cbn [app split_ws_aux]. rewrite (IH Hw), Hc. reflexivity.
Qed.

(** Two fields with a blank between them split into the two fields. *)
Lemma split_ws_two (a b : pystr) :
  a <> [] -> plain a = true -> b <> [] -> plain b = true ->
  split_ws (a ++ lit " " ++ b) = [a; b].
Proof.
  intros Ha Hpa Hb Hpb.
  assert (Hauxb : split_ws_aux b = (b, [])).
  { pose proof (@split_ws_aux_word b [] Hpb) as H.
    now rewrite !app_nil_r in H. }
  assert (Haux : split_ws_aux (lit " " ++ b) = ([], [b])).
  { change (lit " " ++ b) with (32%N :: b). cbn [split_ws_aux].
    rewrite Hauxb. change (isspace 32%N) with true. cbv iota.
    destruct b; [contradiction|reflexivity]. }
  unfold split_ws.
  rewrite (@split_ws_aux_word a (lit " " ++ b) Hpa), Haux. cbn [fst snd].
  rewrite app_nil_r. destruct a; [contradiction|reflexivity].
Qed.

Lemma str_of_int_plain (n : Z) : str_of_int n <> [] /\ plain (str_of_int n) = true.
Proof.
  split.
  - unfold str_of_int, NilZero.string_of_int, NilZero.string_of_uint.
    destruct (Z.to_int n) as [d|d]; destruct d; discriminate.
  - pose proof (str_of_int_chars n) as Hc. unfold plain.
    rewrite forallb_forall in *. intros c Hin. specialize (Hc c Hin).
    apply negb_true_iff. unfold isspace.
    assert (Hd : (48 <= c <= 57)%N \/ c = 45%N).
    { apply orb_prop in Hc as [Hc|Hc].
      - apply andb_prop in Hc as [H1 H2]. apply N.leb_le in H1, H2. now left.
      - apply N.eqb_eq in Hc. now right. }
    destruct Hd as [[H1 H2]| ->]; [|reflexivity].
    repeat (apply orb_false_iff; split);
      try (apply N.eqb_neq; lia);
      apply andb_false_iff; first [left; apply N.leb_gt; lia | right; apply N.leb_gt; lia].
Qed.

(** What the suite of the [try] returns: for each date, the text of an
    [int], a blank and the second field of the date. *)
Lemma shifted_dates_shape (author_date committer_date dates : pystr) :
  shifted_dates author_date committer_date = Some dates ->
  exists a_new a_zone c_new c_zone,
    dates = (str_of_int a_new ++ lit " " ++ a_zone) ++ LF
            :: (str_of_int c_new ++ lit " " ++ c_zone) /\
    nth_error (split_ws author_date) 1 = Some a_zone /\
    nth_error (split_ws committer_date) 1 = Some c_zone.
Proof.
  unfold ModifyDates.shifted_dates, option_bind.
  destruct (nth_error (split_ws author_date) 0); [|discriminate].
  destruct (py_int _ _ _) as [a_ts|]; [|discriminate].
  destruct (nth_error (split_ws author_date) 1) as [a_zone|]; [|discriminate].
  destruct (nth_error (split_ws committer_date) 0); [|discriminate].
  destruct (py_int _ _ _) as [c_ts|]; [|discriminate].
  destruct (nth_error (split_ws committer_date) 1) as [c_zone|]; [|discriminate].
  destruct (add_120_days a_ts) as [a_new|]; [|discriminate].
  destruct (add_120_days c_ts) as [c_new|]; [|discriminate].
  destruct (py_str _ a_new) as [a_text|] eqn:Ea; [|discriminate].
  destruct (py_str _ c_new) as [c_text|] eqn:Ec; [|discriminate].
  apply py_str_text in Ea, Ec. subst a_text c_text.
  intros [= <-]. exists a_new, a_zone, c_new, c_zone.
  split; [|split; reflexivity].
  now rewrite <- !app_assoc.
Qed.

(** The suite of the [try] only returns when both dates can be read. *)
Lemma shifted_dates_readable (author_date committer_date dates date : pystr) :
  shifted_dates author_date committer_date = Some dates ->
  date = author_date \/ date = committer_date ->
  (2 <= List.length (split_ws date))%nat /\
  forall field,
    nth_error (split_ws date) 0 = Some field ->
    py_int todecimal max_str_digits field <> None.
Proof.
  unfold ModifyDates.shifted_dates, option_bind.
  destruct (nth_error (split_ws author_date) 0) as [a_field|] eqn:Ea0; [|discriminate].
  destruct (py_int _ _ a_field) as [a_ts|] eqn:Eai; [|discriminate].
  destruct (nth_error (split_ws author_date) 1) as [a_zone|] eqn:Ea1; [|discriminate].
  destruct (nth_error (split_ws committer_date) 0) as [c_field|] eqn:Ec0; [|discriminate].
  destruct (py_int _ _ c_field) as [c_ts|] eqn:Eci; [|discriminate].
  destruct (nth_error (split_ws committer_date) 1) as [c_zone|] eqn:Ec1; [|discriminate].
  intros _ [-> | ->].
  - split.
    + assert (H : (1 < List.length (split_ws author_date))%nat)
        by (apply nth_error_Some; congruence).
      lia.
    + intros field Hf. rewrite Ea0 in Hf. injection Hf as <-. congruence.
  - split.
    + assert (H : (1 < List.length (split_ws committer_date))%nat)
        by (apply nth_error_Some; congruence).
      lia.
    + intros field Hf. rewrite Ec0 in Hf. injection Hf as <-. congruence.
Qed.

Lemma date_line (n : Z) (zone date : pystr) :
  nth_error (split_ws date) 1 = Some zone ->
  existsb (N.eqb LF) (str_of_int n ++ lit " " ++ zone) = false /\
  nth_error (split_ws (str_of_int n ++ lit " " ++ zone)) 1 = Some zone.
Proof.
  intros Hz.
  destruct (split_ws_fields date zone (nth_error_In _ _ Hz)) as [Hne Hp].
  destruct (str_of_int_plain n) as [Hn Hpn]. split.
  - rewrite !existsb_app.
    repeat (apply orb_false_iff; split);
      try reflexivity; now apply plain_no_newline.
  - now rewrite split_ws_two.
Qed.

Lemma modify_lines (commit_info : pystr) :
  (List.length (split LF (strip commit_info)) < 3)%nat /\
  modify_commit_date commit_info = inl IndexError
  \/
  exists commit_hash author_date committer_date rest,
    split LF (strip commit_info) = commit_hash :: author_date :: committer_date :: rest /\
    modify_commit_date commit_info
    = inr (if str_eqb commit_hash SKIP_COMMIT then author_date ++ [LF] ++ committer_date
           else match shifted_dates author_date committer_date with
                | Some dates => dates
                | None => author_date ++ [LF] ++ committer_date
                end).
Proof.
  unfold ModifyDates.modify_commit_date.
  destruct (split LF (strip commit_info)) as [|h [|a [|c rest]]];
    try (left; split; [cbn; lia|reflexivity]).
  right. exists h, a, c, rest. split; [reflexivity|]. cbn [nth_error].
  destruct (str_eqb h SKIP_COMMIT); [reflexivity|].
  destruct (ModifyDates.shifted_dates _ _ _ a c); reflexivity.
Qed.

End ModifyDatesFacts.

(** * Further properties, with their instances *)

Lemma X2_witness :
  let w := mkWorld (Completed (mkCompleted 0 (dq " {'status':'ok'} ") (lit "warming up")))
             1700000000000 in
  exists result,
    probe w = Completed result /\
    returncode result = 0%Z /\
    py_json_loads expecting_value (clean_output (stdout result)) = inr tt /\
    encode_utf8 (clean_output (stdout result)) = inr (bdq "{'status':'ok'}") /\
    headers (mkResponse 200 JSON_TYPE (bdq "{'status':'ok'}")) = JSON_TYPE.
Proof.
  intros w.
  exact (@X2_ok_only_if_validated (py_json_loads expecting_value) (lit "/health") w
           (mkResponse 200 JSON_TYPE (bdq "{'status':'ok'}"))
           (or_intror eq_refl) eq_refl eq_refl).
Defined.

Lemma X3_witness :
  let w := mkWorld (Completed (mkCompleted 0 (lit "Segmentation fault") [])) 1700000000000 in
  exists r,
    respond (py_json_loads expecting_value) GET (lit "/") w = Some r /\
    (status r = 200%Z \/ status r = 404%Z \/ status r = 500%Z) /\
    (status r = 500%Z -> exists message, r = error_response message (now_ms w)).
Proof.
  intros w.
  refine (@X3_one_response (py_json_loads expecting_value) GET (lit "/") w
            (or_introl eq_refl) _).
  intros result [= <-]. reflexivity.
Defined.

(** X6: stdout that is valid JSON once stripped is never altered by the
    clean-up, whatever it contains (the text EOF, the probe's path): the
    cleaned text is the stripped text, and when json.loads accepts it the
    answer is 200 with the stripped text as body. *)
Theorem X6_valid_json_untouched (json_loads : pystr -> exc + unit) (path : pystr)
    (w : World) (result : CompletedProcess) :
  path = lit "/" \/ path = lit "/health" ->
  probe w = Completed result ->
  returncode result = 0%Z ->
  well_decoded (stdout result) = true ->
  json_valid (strip (stdout result)) = true ->
  clean_output (stdout result) = strip (stdout result) /\
  (json_loads (strip (stdout result)) = inr tt ->
   respond json_loads GET path w
   = Some (mkResponse 200 JSON_TYPE (utf8_bytes (strip (stdout result))))).
Proof.
  intros Hp Hw Hrc Hwd Hv. split.
  - apply clean_output_identity, json_valid_no_probe_line, Hv.
  - intros Hj. now apply valid_json_passes_unchanged.
Qed.

Lemma X6_witness :
  let out := dq "{'log': '/usr/local/bin/global-health-check.sh: unexpected EOF', 'status': 'ok'}"
             ++ [LF] in
  let w := mkWorld (Completed (mkCompleted 0 out [])) 1700000000000 in
  contains (lit "EOF") (strip out) = true /\
  respond (cpython_json_loads 980 4300 expecting_value) GET (lit "/health") w
  = Some (mkResponse 200 JSON_TYPE
            (bdq "{'log': '/usr/local/bin/global-health-check.sh: unexpected EOF', 'status': 'ok'}")).
Proof.
  intros out w. split; [reflexivity|].
  refine (proj2 (@X6_valid_json_untouched (cpython_json_loads 980 4300 expecting_value)
                   (lit "/health") w (mkCompleted 0 out [])
                   (or_intror eq_refl) eq_refl eq_refl eq_refl eq_refl) eq_refl).
Defined.

(** X7: [int] reads back what formatting an [int] wrote: whenever [str(n)]
    is produced, [int] of that text is [n], whatever the digit cap and the
    digits of other scripts. *)
Theorem X7_int_of_str (todecimal : pychar -> option N) (max_str_digits : nat)
    (n : Z) (text : pystr) :
  py_str max_str_digits n = Some text ->
  py_int todecimal max_str_digits text = Some n.
Proof.
  intros Hs. pose proof (py_str_text _ _ Hs) as ->.
  now apply py_int_str_of_int.
Qed.

Lemma X7_witness :
  py_str 4300 (-1710368000) = Some (lit "-1710368000") /\
  py_int some_digits 4300 (lit "-1710368000") = Some (-1710368000)%Z.
Proof.
  split; [reflexivity|].
  exact (@X7_int_of_str some_digits 4300 (-1710368000) (lit "-1710368000") eq_refl).
Defined.

Import ShiftDates.

(** X8: shift_dates.py never ends in an uncaught exception, keeps the names
    and the order of the environment variables, and changes no variable but
    GIT_AUTHOR_DATE and GIT_COMMITTER_DATE; when the commit message holds
    the text to skip, it exits with code 0 and changes nothing at all. *)
Theorem X8_shift_dates_frame (todecimal : pychar -> option N) (max_str_digits : nat)
    (environ_accepts : pystr -> bool) (env : environ) :
  let outcome := shift_dates todecimal max_str_digits environ_accepts env in
  (forall e, outcome <> Uncaught e) /\
  List.map fst (final_env outcome) = List.map fst env /\
  (forall name,
     name <> GIT_AUTHOR_DATE -> name <> GIT_COMMITTER_DATE ->
     env_get name (final_env outcome) = env_get name env) /\
  (forall message,
     env_get GIT_COMMIT_MESSAGE env = Some message ->
     contains SKIP_MESSAGE message = true ->
     outcome = SysExit 0 env).
Proof.
  intros outcome. subst outcome.
  destruct (shift_dates_frame todecimal max_str_digits environ_accepts env)
    as (H1 & H2 & H3).
  repeat split; try assumption.
  intros message Hm Hs. unfold shift_dates. now rewrite Hm, Hs.
Qed.

(** X9: when the commit is not skipped and the text before the first at
    sign of a date variable is an integer, the script sets the variable to
    that integer plus 10368000, a blank, an at sign and the untouched text
    after the first at sign. *)
Theorem X9_shift_dates_value (todecimal : pychar -> option N) (max_str_digits : nat)
    (environ_accepts : pystr -> bool) (name : pystr) (env : environ)
    (pre zone : pystr) (n : Z) (text : pystr) :
  name = GIT_AUTHOR_DATE \/ name = GIT_COMMITTER_DATE ->
  not_skipped env ->
  env_get name env = Some (pre ++ AT :: zone) ->
  existsb (N.eqb AT) pre = false ->
  py_int todecimal max_str_digits (strip pre) = Some n ->
  py_str max_str_digits (n + 10368000) = Some text ->
  environ_accepts (text ++ lit " @" ++ zone) = true ->
  env_get name (final_env (shift_dates todecimal max_str_digits environ_accepts env))
  = Some (text ++ lit " @" ++ zone).
Proof. apply shift_dates_value. Qed.

Lemma X9_witness :
  let env :=
    [(lit "GIT_AUTHOR_DATE", lit "1700000000 @+0800");
     (lit "GIT_COMMIT_MESSAGE", lit "fix: typo");
     (lit "GIT_COMMITTER_DATE", lit " 1700000100 @zone@x")] in
  env_get GIT_COMMITTER_DATE
    (final_env (shift_dates some_digits 4300 (fun _ => true) env))
  = Some (lit "1710368100 @zone@x").
Proof.
  intros env.
  refine (@X9_shift_dates_value some_digits 4300 (fun _ => true) GIT_COMMITTER_DATE env
            (lit " 1700000100 ") (lit "zone@x") 1700000100 (lit "1710368100")
            (or_intror eq_refl) _ eq_refl eq_refl eq_refl eq_refl eq_refl).
  intros message [= <-]. reflexivity.
Defined.

(** X10: a date variable whose first at sign has nothing but whitespace in
    front of it, for instance a date written as an at sign, the seconds and
    the zone, is left as it is: the text to read as an integer is empty. *)
Theorem X10_shift_dates_raw_date (todecimal : pychar -> option N)
    (max_str_digits : nat) (environ_accepts : pystr -> bool)
    (name : pystr) (env : environ) (pre rest : pystr) :
  name = GIT_AUTHOR_DATE \/ name = GIT_COMMITTER_DATE ->
  env_get name env = Some (pre ++ AT :: rest) ->
  forallb isspace pre = true ->
  env_get name (final_env (shift_dates todecimal max_str_digits environ_accepts env))
  = Some (pre ++ AT :: rest).
Proof. apply shift_dates_blank. Qed.

Lemma X10_witness :
  let env :=
    [(lit "GIT_AUTHOR_DATE", lit "@1700000000 +0800");
     (lit "GIT_COMMITTER_DATE", lit "@1700000100 +0800")] in
  shift_dates some_digits 4300 (fun _ => true) env = Finished env /\
  env_get GIT_AUTHOR_DATE
    (final_env (shift_dates some_digits 4300 (fun _ => true) env))
  = Some (lit "@1700000000 +0800").
Proof.
  intros env. split; [reflexivity|].
  exact (@X10_shift_dates_raw_date some_digits 4300 (fun _ => true) GIT_AUTHOR_DATE env
           [] (lit "1700000000 +0800") (or_introl eq_refl) eq_refl eq_refl).
Defined.

(** X11: the script can be run on its own result: the date it wrote is
    read back and shifted once more, by 20736000 seconds in all, and the
    text after the first at sign is still the original one. *)
Theorem X11_shift_dates_twice (todecimal : pychar -> option N)
    (max_str_digits : nat) (environ_accepts : pystr -> bool)
    (name : pystr) (env : environ) (pre zone : pystr) (n : Z) (text text' : pystr) :
  name = GIT_AUTHOR_DATE \/ name = GIT_COMMITTER_DATE ->
  not_skipped env ->
  env_get name env = Some (pre ++ AT :: zone) ->
  existsb (N.eqb AT) pre = false ->
  py_int todecimal max_str_digits (strip pre) = Some n ->
  py_str max_str_digits (n + 10368000) = Some text ->
  py_str max_str_digits (n + 20736000) = Some text' ->
  environ_accepts (text ++ lit " @" ++ zone) = true ->
  environ_accepts (text' ++ lit " @" ++ zone) = true ->
  let once := final_env (shift_dates todecimal max_str_digits environ_accepts env) in
  env_get name (final_env (shift_dates todecimal max_str_digits environ_accepts once))
  = Some (text' ++ lit " @" ++ zone).
Proof.
  intros Hname Hns Hget Hpre Hint Hstr Hstr' Hacc Hacc' once. subst once.
  apply (@shift_dates_twice todecimal max_str_digits environ_accepts
           name env pre zone n text text'); try assumption.
  now replace (n + SHIFT + SHIFT)%Z with (n + 20736000)%Z by (unfold SHIFT; lia).
Qed.

Lemma X11_witness :
  let env := [(lit "GIT_AUTHOR_DATE", lit "1700000000 @+0800")] in
  let once := final_env (shift_dates some_digits 4300 (fun _ => true) env) in
  env_get GIT_AUTHOR_DATE
    (final_env (shift_dates some_digits 4300 (fun _ => true) once))
  = Some (lit "1720736000 @+0800").
Proof.
  intros env.
  refine (@X11_shift_dates_twice some_digits 4300 (fun _ => true) GIT_AUTHOR_DATE env
            (lit "1700000000 ") (lit "+0800") 1700000000
            (lit "1710368000") (lit "1720736000")
            (or_introl eq_refl) _ eq_refl eq_refl eq_refl eq_refl eq_refl eq_refl eq_refl).
  intros message H. discriminate H.
Defined.

Import ModifyDates.

(** X12: [modify_commit_date] raises IndexError exactly when its stripped
    input has fewer than three lines; with three lines or more it always
    returns. *)
Theorem X12_modify_index_error (todecimal : pychar -> option N)
    (max_str_digits : nat) (add_120_days : Z -> option Z) (commit_info : pystr) :
  modify_commit_date todecimal max_str_digits add_120_days commit_info = inl IndexError
  <-> (List.length (split LF (strip commit_info)) < 3)%nat.
Proof.
  destruct (modify_lines todecimal max_str_digits add_120_days commit_info)
    as [[Hlen Hr] | (h & a & c & rest & Hl & Hr)]; rewrite Hr.
  - tauto.
  - rewrite Hl. cbn [List.length]. split; [discriminate|lia].
Qed.

(** X13: whatever [modify_commit_date] returns has exactly two lines, and
    the second field of each of them, the time zone, is the second field of
    the date line it comes from. *)
Theorem X13_modify_two_lines (todecimal : pychar -> option N)
    (max_str_digits : nat) (add_120_days : Z -> option Z)
    (commit_info result : pystr) :
  modify_commit_date todecimal max_str_digits add_120_days commit_info = inr result ->
  exists author_date committer_date author_line committer_line,
    nth_error (split LF (strip commit_info)) 1 = Some author_date /\
    nth_error (split LF (strip commit_info)) 2 = Some committer_date /\
    split LF result = [author_line; committer_line] /\
    nth_error (split_ws author_line) 1 = nth_error (split_ws author_date) 1 /\
    nth_error (split_ws committer_line) 1 = nth_error (split_ws committer_date) 1.
Proof.
  intros Hres.
  destruct (modify_lines todecimal max_str_digits add_120_days commit_info)
    as [[_ Hr] | (h & a & c & rest & Hl & Hr)]; rewrite Hr in Hres; [discriminate|].
  injection Hres as <-. rewrite Hl. exists a, c. cbn [nth_error].
  assert (Ha : existsb (N.eqb LF) a = false)
    by (apply (@split_line_no_sep LF (strip commit_info)); rewrite Hl; cbn; tauto).
  assert (Hc : existsb (N.eqb LF) c = false)
    by (apply (@split_line_no_sep LF (strip commit_info)); rewrite Hl; cbn; tauto).
  assert (Horig : exists l1 l2,
             split LF (a ++ [LF] ++ c) = [l1; l2] /\
             nth_error (split_ws l1) 1 = nth_error (split_ws a) 1 /\
             nth_error (split_ws l2) 1 = nth_error (split_ws c) 1).
  { exists a, c. split; [|split; reflexivity]. now apply split_pair. }
  destruct (str_eqb h SKIP_COMMIT).
  { destruct Horig as (l1 & l2 & H). exists l1, l2. tauto. }
  destruct (shifted_dates todecimal max_str_digits add_120_days a c) as [dates|] eqn:Hs.
  2: { destruct Horig as (l1 & l2 & H). exists l1, l2. tauto. }
  destruct (@shifted_dates_shape todecimal max_str_digits add_120_days a c dates Hs) as (an & az & cn & cz & -> & Hza & Hzc).
  destruct (@date_line an az a Hza) as [Hna Hfa].
  destruct (@date_line cn cz c Hzc) as [Hnc Hfc].
  exists (str_of_int an ++ lit " " ++ az), (str_of_int cn ++ lit " " ++ cz).
  split; [reflexivity|]. split; [reflexivity|].
  split; [now apply split_pair|].
  split; [exact (eq_trans Hfa (eq_sym Hza))|exact (eq_trans Hfc (eq_sym Hzc))].
Qed.

Lemma X13_witness :
  let info := lit "9fceb02" ++ [LF] ++ lit "1700000000 +0800" ++ [LF]
              ++ lit "1700000100   -0500 extra" ++ [LF] in
  modify_commit_date some_digits 4300 add_120_days_utc info
  = inr (lit "1710368000 +0800" ++ [LF] ++ lit "1710368100 -0500") /\
  exists author_date committer_date author_line committer_line,
    nth_error (split LF (strip info)) 1 = Some author_date /\
    nth_error (split LF (strip info)) 2 = Some committer_date /\
    split LF (lit "1710368000 +0800" ++ [LF] ++ lit "1710368100 -0500")
    = [author_line; committer_line] /\
    nth_error (split_ws author_line) 1 = nth_error (split_ws author_date) 1 /\
    nth_error (split_ws committer_line) 1 = nth_error (split_ws committer_date) 1.
Proof.
  intros info. split; [reflexivity|].
  exact (@X13_modify_two_lines some_digits 4300 add_120_days_utc info
           (lit "1710368000 +0800" ++ [LF] ++ lit "1710368100 -0500") eq_refl).
Defined.

(** X14: for the commit to skip, and for dates that cannot be read (a date
    line with fewer than two fields, or a first field that [int] refuses),
    [modify_commit_date] returns the two date lines as they came. *)
Theorem X14_modify_keeps_unreadable (todecimal : pychar -> option N)
    (max_str_digits : nat) (add_120_days : Z -> option Z)
    (commit_info commit_hash author_date committer_date : pystr) (rest : list pystr) :
  split LF (strip commit_info) = commit_hash :: author_date :: committer_date :: rest ->
  commit_hash = SKIP_COMMIT
  \/ (exists date,
        (date = author_date \/ date = committer_date) /\
        ((List.length (split_ws date) < 2)%nat \/
         exists field,
           nth_error (split_ws date) 0 = Some field /\
           py_int todecimal max_str_digits field = None)) ->
  modify_commit_date todecimal max_str_digits add_120_days commit_info
  = inr (author_date ++ [LF] ++ committer_date).
Proof.
  intros Hl Hcase. unfold modify_commit_date. rewrite Hl. cbn [nth_error].
  destruct Hcase as [-> | (date & Hdate & Hbad)].
  - change (str_eqb SKIP_COMMIT SKIP_COMMIT) with true. reflexivity.
  - destruct (str_eqb commit_hash SKIP_COMMIT); [reflexivity|].
    destruct (shifted_dates todecimal max_str_digits add_120_days author_date committer_date)
      as [dates|] eqn:Hs; [exfalso|reflexivity].
    destruct (@shifted_dates_readable todecimal max_str_digits add_120_days
                author_date committer_date dates date Hs Hdate) as [Hlen Hint].
    destruct Hbad as [Hshort | (field & Hf & Hi)]; [lia|].
    exact (Hint field Hf Hi).
Qed.

Lemma X14_witness :
  let info := lit "9fceb02" ++ [LF] ++ lit "@1700000000 +0800" ++ [LF]
              ++ lit "1700000100 -0500" in
  modify_commit_date some_digits 4300 add_120_days_utc info
  = inr (lit "@1700000000 +0800" ++ [LF] ++ lit "1700000100 -0500").
Proof.
  intros info.
  refine (@X14_modify_keeps_unreadable some_digits 4300 add_120_days_utc info
            (lit "9fceb02") (lit "@1700000000 +0800") (lit "1700000100 -0500") []
            eq_refl _).
  right. exists (lit "@1700000000 +0800"). split; [now left|].
  right. exists (lit "@1700000000"). split; reflexivity.
Defined.

Lemma X8_witness :
  let env :=
    [(lit "GIT_AUTHOR_DATE", lit "1700000000 @+0800");
     (lit "GIT_COMMIT_MESSAGE",
      lit "feat: add Meilisearch and NATS configuration for search and messaging (#12)")] in
  shift_dates some_digits 4300 (fun _ => true) env = SysExit 0 env.
Proof.
  intros env.
  exact (proj2 (proj2 (proj2 (@X8_shift_dates_frame some_digits 4300 (fun _ => true) env)))
           (lit "feat: add Meilisearch and NATS configuration for search and messaging (#12)")
           eq_refl eq_refl).
Defined.

Lemma X12_witness :
  modify_commit_date some_digits 4300 add_120_days_utc
    (lit "9fceb02" ++ [LF] ++ lit "1700000000 +0800" ++ [LF])
  = inl IndexError.
Proof.
  apply (proj2 (@X12_modify_index_error some_digits 4300 add_120_days_utc
                  (lit "9fceb02" ++ [LF] ++ lit "1700000000 +0800" ++ [LF]))).
  vm_compute. lia.
Defined.
